(** * FreeAuth: the verification-session lifecycle, verified

    A shallow embedding of the two implementations of FreeAuth
    (the Express server with its in-memory session map, and the
    Cloudflare worker with its Firestore collection), and the theorems
    that settle the properties claimed of them.

    Layout: [Js] (values, objects, the insertion-ordered [Map]),
    [Phone] (normalizePhone, validatePhoneNumber), [Async] (handlers as
    processes with explicit suspension points), [Wire] (HTTP answers,
    contact cards), [Server] (services/session.js,
    services/telegram.js, routes/auth.js), [Worker]
    (workers/index.js), [PhoneSpec], [Views] and [Scenario] (what the
    statements are written with), then the theorems. *)

From Stdlib Require Import ZArith String Ascii List Bool Lia.
From stdpp Require Import gmap strings list fin_maps.

Local Open Scope string_scope.
Local Open Scope Z_scope.

(** ** JavaScript values and objects *)

Module Js.

(** The values a session field, a request body field or a JSON payload
    field can hold. Numbers are the integers the code handles (epoch
    milliseconds, Telegram ids). *)
Inductive val : Type :=
| VUndef
| VNull
| VBool (b : bool)
| VNum (n : Z)
| VStr (s : string).

#[export] Instance val_eq_dec : EqDecision val.
Proof. solve_decision. Defined.

(** A plain object: own properties by name. *)
Abbreviation obj := (gmap string val).

(** [o.k]: a missing property reads as [undefined]. *)
Definition prop (o : obj) (k : string) : val := default VUndef (o !! k).

(** ToBoolean. *)
Definition truthy (v : val) : bool :=
  match v with
  | VUndef | VNull => false
  | VBool b => b
  | VNum n => negb (n =? 0)
  | VStr s => negb (String.eqb s "")
  end.

(** [a === b] and [a !== b]. *)
Definition strict_eq (a b : val) : bool := bool_decide (a = b).
Definition strict_ne (a b : val) : bool := negb (strict_eq a b).

(** [a || b]. *)
Definition or_else (a b : val) : val := if truthy a then a else b.

(** [{ ...a, ...b }]: the properties of [b] win. *)
Definition spread (a b : obj) : obj := b ∪ a.

(** What JSON.stringify keeps of an object: a property whose value is
    [undefined] is dropped. *)
Definition json (o : obj) : obj := filter (λ kv, kv.2 ≠ VUndef) o.

(** ToNumber, on the values whose conversion the code relies on; a
    string (none is ever stored in expires_at by the server) is left
    unconverted. *)
Definition to_number (v : val) : option Z :=
  match v with
  | VNum n => Some n
  | VBool b => Some (if b then 1 else 0)
  | VNull => Some 0
  | VUndef | VStr _ => None
  end.

(** [n > v] for a number [n]; a comparison with NaN is false. *)
Definition num_gt (n : Z) (v : val) : bool :=
  match to_number v with Some m => m <? n | None => false end.

(** [s.startsWith(p)]. *)
Fixpoint startsWith (s p : string) {struct p} : bool :=
  match p with
  | EmptyString => true
  | String a p' =>
      match s with
      | EmptyString => false
      | String b s' => Ascii.eqb a b && startsWith s' p'
      end
  end.

(** [s.split(sep)] for a one-character separator. *)
Fixpoint split_acc (sep : ascii) (cur : string) (s : string) : list string :=
  match s with
  | EmptyString => [String.rev cur]
  | String c r =>
      if Ascii.eqb c sep then String.rev cur :: split_acc sep EmptyString r
      else split_acc sep (String c cur) r
  end.

Definition split (sep : ascii) (s : string) : list string :=
  split_acc sep EmptyString s.

(** [arr[i]] on an array of strings. *)
Definition index (l : list string) (i : nat) : val :=
  match l !! i with Some s => VStr s | None => VUndef end.

(** *** The built-in [Map]: keys in insertion order

    [set] on a present key replaces the value where it stands, on an
    absent key appends; [entries()] is the list itself. *)
Section Map.
Context {V : Type}.

Fixpoint map_get (k : string) (m : list (string * V)) : option V :=
  match m with
  | [] => None
  | (k', v) :: r => if String.eqb k k' then Some v else map_get k r
  end.

Fixpoint map_set (k : string) (v : V) (m : list (string * V)) : list (string * V) :=
  match m with
  | [] => [(k, v)]
  | (k', v') :: r =>
      if String.eqb k k' then (k, v) :: r else (k', v') :: map_set k v r
  end.

Fixpoint map_delete (k : string) (m : list (string * V)) : list (string * V) :=
  match m with
  | [] => []
  | (k', v') :: r =>
      if String.eqb k k' then r else (k', v') :: map_delete k r
  end.
End Map.

End Js.

Import Js.

(** ** Phone numbers *)

Module Phone.

Definition is_digit (c : ascii) : bool :=
  let n := N_of_ascii c in ((48 <=? n) && (n <=? 57))%N.

(** [s.replace(/\D/g, "")]. *)
Fixpoint strip_non_digits (s : string) : string :=
  match s with
  | EmptyString => EmptyString
  | String c r =>
      if is_digit c then String c (strip_non_digits r) else strip_non_digits r
  end.

(** [s.substring(1)]. *)
Definition substring1 (s : string) : string :=
  match s with
  | EmptyString => EmptyString
  | String _ r => r
  end.

(** normalizePhone, the same text in services/session.js,
    services/telegram.js and workers/index.js. *)
Definition normalizePhone (phone : string) : string :=
  if negb (truthy (VStr phone)) then ""
  else
    let cleaned := strip_non_digits phone in
    if startsWith cleaned "09" && (String.length cleaned =? 10)%nat
    then String.append "251" (substring1 cleaned)
    else cleaned.

(** validatePhoneNumber: [phone] is any value of the request body. *)
Definition validatePhoneNumber (phone : val) : bool :=
  match phone with
  | VStr s =>
      if negb (truthy phone) then false
      else
        let cleaned := strip_non_digits s in
        (10 <=? String.length cleaned)%nat && (String.length cleaned <=? 15)%nat
  | _ => false
  end.

End Phone.

Import Phone.

(** ** Asynchronous handlers

    An [async] function is a process over a world [W]: synchronous
    steps ([Act]) that read and write the world, and the points where
    it is suspended at an [await] ([Yield]). The event loop runs one
    handler at a time from one suspension point to the next, so what
    stands between two [Yield]s is atomic, and other handlers may run
    at every [Yield]. *)

Module Async.

Inductive proc (W A : Type) : Type :=
| Ret (a : A)
| Act {B : Type} (act : W -> W * B) (k : B -> proc W A)
| Yield (k : proc W A).

Arguments Ret {W A} a.
Arguments Act {W A B} act k.
Arguments Yield {W A} k.

Section Proc.
Context {W : Type}.

Fixpoint bind {A B} (p : proc W A) (f : A -> proc W B) : proc W B :=
  match p with
  | Ret a => f a
  | Act act k => Act act (fun b => bind (k b) f)
  | Yield k => Yield (bind k f)
  end.

(** A synchronous step. *)
Definition step {B} (act : W -> W * B) : proc W B := Act act Ret.

(** [await p]: the value of [p], after a suspension. *)
Definition await {A} (p : proc W A) : proc W A :=
  bind p (fun a => Yield (Ret a)).

(** A request to a remote service: the handler is suspended while the
    request travels, the service acts at one instant, and the handler
    is suspended again until the answer is back. *)
Definition remote {B} (act : W -> W * B) : proc W B :=
  Yield (Act act (fun b => Yield (Ret b))).

(** The handler alone, from start to end. *)
Fixpoint run {A} (p : proc W A) (w : W) : W * A :=
  match p with
  | Ret a => (w, a)
  | Act act k => let (w', b) := act w in run (k b) w'
  | Yield k => run k w
  end.

(** One turn of the event loop: the handler runs up to its next
    suspension point (a finished handler stays finished). *)
Fixpoint resume {A} (p : proc W A) (w : W) : W * proc W A :=
  match p with
  | Ret a => (w, Ret a)
  | Act act k => let (w', b) := act w in resume (k b) w'
  | Yield k => (w, k)
  end.

(** Two handlers in flight. The schedule says whose turn it is
    ([true]: the first); when it is used up, the first runs to its end
    and then the second. *)
Fixpoint interleave {A B} (sched : list bool) (p : proc W A) (q : proc W B)
    (w : W) : W * A * B :=
  match sched with
  | [] => let (w1, a) := run p w in let (w2, b) := run q w1 in (w2, a, b)
  | true :: s => let (w', p') := resume p w in interleave s p' q w'
  | false :: s => let (w', q') := resume q w in interleave s p q' w'
  end.
End Proc.

#[export] Instance proc_ret {W} : MRet (proc W) := fun A a => Ret a.
#[export] Instance proc_bind {W} : MBind (proc W) := fun A B f p => bind p f.

End Async.

Import Async.

(** ** What crosses the boundary: HTTP answers, Telegram contact cards *)

Module Wire.

(** An HTTP answer: status and JSON body. *)
Inductive response : Type :=
| Json (status : Z) (body : obj).

(** The contact card of a Telegram message; [user_id] is optional. *)
Record contact : Type := Contact {
  phone_number : string;
  first_name : string;
  user_id : option Z
}.

Definition user_id_val (c : contact) : val :=
  match user_id c with Some n => VNum n | None => VUndef end.

End Wire.

Import Wire.

(** ** The Express server: services/session.js, services/telegram.js,
       routes/auth.js *)

Module Server.

(** The texts the bot sends, by their headline. *)
Inductive reply : Type :=
| Welcome                 (* "Welcome to FreeAuth" *)
| InvalidSession          (* "Invalid Session" *)
| AlreadyVerified         (* "Already Verified" *)
| SecurityCheckRequired   (* "Security Check Required", with the share-contact button *)
| SecurityError           (* "Security Error ... forwarded contact" *)
| SessionExpired          (* "Session expired. Please try again from the app." *)
| VerificationFailed      (* "Verification Failed ... does not match" *)
| VerificationComplete (first_name : string). (* "Verification Complete! Thanks, <first_name>" *)

(** What leaves the process: a message to a chat, a POST to a webhook. *)
Inductive effect : Type :=
| ChatReply (chat : Z) (r : reply)
| WebhookPost (url : val) (body : obj).

(** The process state: the [verifications] map of createMemoryStorage,
    the pending setTimeout callbacks (due time, token), what was sent,
    Date.now(), and the uuid generator (its outputs, and how many were
    drawn). *)
Record world : Type := World {
  sessions : list (string * obj);
  timers : list (Z * string);
  sent : list effect;
  clock : Z;
  uuid_source : nat -> string;
  uuid_drawn : nat
}.

Definition set_sessions (f : list (string * obj) -> list (string * obj)) (w : world) : world :=
  World (f (sessions w)) (timers w) (sent w) (clock w) (uuid_source w) (uuid_drawn w).

Definition add_timer (t : Z * string) (w : world) : world :=
  World (sessions w) (timers w ++ [t]) (sent w) (clock w) (uuid_source w) (uuid_drawn w).

Definition emit (e : effect) (w : world) : world :=
  World (sessions w) (timers w) (sent w ++ [e]) (clock w) (uuid_source w) (uuid_drawn w).

(** Time passes between two events. *)
Definition at_time (t : Z) (w : world) : world :=
  World (sessions w) (timers w) (sent w) t (uuid_source w) (uuid_drawn w).

Definition Date_now : proc world Z := step (fun w => (w, clock w)).

Definition uuidv4 : proc world string :=
  step (fun w =>
    (World (sessions w) (timers w) (sent w) (clock w) (uuid_source w) (S (uuid_drawn w)),
     uuid_source w (uuid_drawn w))).

(** *** createMemoryStorage *)

(** The callback create() hands to setTimeout. *)
Definition expire_callback (token : string) : proc world unit :=
  step (fun w =>
    match map_get token (sessions w) with
    | Some data =>
        if strict_eq (prop data "status") (VStr "pending")
        then (set_sessions (map_delete token) w, tt)
        else (w, tt)
    | None => (w, tt)
    end).

Definition storage_create (token : string) (data : obj) : proc world string :=
  step (fun w =>
    (add_timer (clock w + 600000, token) (set_sessions (map_set token data) w), token)).

Definition storage_get (token : string) : proc world (option obj) :=
  step (fun w => (w, map_get token (sessions w))).

Definition storage_update (token : string) (data : obj) : proc world bool :=
  step (fun w =>
    match map_get token (sessions w) with
    | Some existing => (set_sessions (map_set token (spread existing data)) w, true)
    | None => (w, false)
    end).

Definition storage_delete (token : string) : proc world bool :=
  step (fun w =>
    (set_sessions (map_delete token) w,
     bool_decide (is_Some (map_get token (sessions w))))).

Definition storage_getAll : proc world (list (string * obj)) :=
  step (fun w => (w, sessions w)).

Definition storage_findByChatId (chatId : Z) : proc world (option (string * obj)) :=
  step (fun w =>
    (w, find (fun '(token, data) =>
                strict_eq (prop data "chat_id") (VNum chatId)
                && strict_eq (prop data "status") (VStr "pending"))
             (sessions w))).

(** *** The session service *)

Definition createSession (phone : string) (webhook_url client_secret : val)
    : proc world (string * obj) :=
  token ← uuidv4;
  created ← Date_now;
  now ← Date_now;
  let sessionData : obj :=
    {[ "status" := VStr "pending";
       "expected_phone" := VStr (normalizePhone phone);
       "webhook_url" := or_else webhook_url VNull;
       "client_secret" := or_else client_secret VNull;
       "created_at" := VNum created;
       "expires_at" := VNum (now + 600000) ]} in
  _ ← await (storage_create token sessionData);
  mret (token, sessionData).

(** getSession returns the object it read, with its status assigned
    after the store was given a new merged object. *)
Definition getSession (token : string) : proc world (option obj) :=
  session ← await (storage_get token);
  match session with
  | None => mret None
  | Some session =>
      now ← Date_now;
      if truthy (prop session "expires_at") && num_gt now (prop session "expires_at")
      then
        _ ← await (storage_update token {[ "status" := VStr "expired" ]});
        mret (Some (<[ "status" := VStr "expired" ]> session))
      else mret (Some session)
  end.

Definition verifySession (token : string) (c : contact) : proc world obj :=
  now ← Date_now;
  let updateData : obj :=
    {[ "status" := VStr "verified";
       "phone" := VStr (phone_number c);
       "telegram_id" := user_id_val c;
       "first_name" := VStr (first_name c);
       "verified_at" := VNum now ]} in
  _ ← await (storage_update token updateData);
  mret updateData.

(** *** routes/auth.js: GET /check/:token *)

Definition check (token : string) : proc world response :=
  session ← await (getSession token);
  match session with
  | None => mret (Json 404 {[ "error" := VStr "Token not found" ]})
  | Some session =>
      let safeSession := delete "client_secret" session in
      mret (Json 200 (json safeSession))
  end.

(** *** services/telegram.js: the bot handlers *)

Definition ctx_reply (chat : Z) (r : reply) : proc world unit :=
  step (fun w => (emit (ChatReply chat r) w, tt)).

Definition axios_post (url : val) (body : obj) : proc world unit :=
  step (fun w => (emit (WebhookPost url (json body)) w, tt)).

(** bot.start: [text] is ctx.message.text, [chat] is ctx.chat.id. *)
Definition on_start (chat : Z) (text : string) : proc world unit :=
  let args := split " " text in
  match index args 1 with
  | VStr token =>
      if negb (truthy (VStr token)) then ctx_reply chat Welcome
      else
        session ← await (storage_get token);
        match session with
        | None => ctx_reply chat InvalidSession
        | Some session =>
            if strict_eq (prop session "status") (VStr "verified")
            then ctx_reply chat AlreadyVerified
            else
              _ ← await (storage_update token {[ "chat_id" := VNum chat ]});
              await (ctx_reply chat SecurityCheckRequired)
        end
  | _ => ctx_reply chat Welcome
  end.

(** bot.on("contact"): [from] is ctx.from.id. *)
Definition on_contact (chat from : Z) (c : contact) : proc world unit :=
  if strict_ne (user_id_val c) (VNum from) then ctx_reply chat SecurityError
  else
    found ← storage_findByChatId chat;
    match found with
    | None => ctx_reply chat SessionExpired
    | Some (foundToken, session) =>
        let telegramPhone := normalizePhone (phone_number c) in
        let expectedPhone := prop session "expected_phone" in
        if strict_ne (VStr telegramPhone) expectedPhone
        then ctx_reply chat VerificationFailed
        else
          now ← Date_now;
          let updateData : obj :=
            {[ "status" := VStr "verified";
               "phone" := VStr (phone_number c);
               "telegram_id" := user_id_val c;
               "first_name" := VStr (first_name c);
               "verified_at" := VNum now ]} in
          _ ← await (storage_update foundToken updateData);
          _ ← (if truthy (prop session "webhook_url")
               then
                 await (axios_post (prop session "webhook_url")
                   (<[ "secret" := prop session "client_secret" ]>
                      (spread {[ "event" := VStr "verification_success";
                                 "token" := VStr foundToken ]}
                              updateData)))
               else mret tt);
          await (ctx_reply chat (VerificationComplete (first_name c)))
    end.

End Server.

(** ** The Cloudflare worker: workers/index.js *)

Module Worker.

(** The texts sendTelegramMessage is called with. *)
Inductive message_text : Type :=
| SecurityCheck          (* "Security Check ... Please share your contact to verify." *)
| InvalidOrExpired       (* "Invalid or expired session." *)
| CannotForward          (* "You cannot forward contacts." *)
| NoActiveVerification   (* "No active verification found." *)
| PhoneMismatch          (* "Phone mismatch." *)
| Verified.              (* "Verified! You can return to the app." *)

Inductive effect : Type :=
| TelegramMessage (chat : Z) (text : message_text)
| WebhookFetch (url : val) (body : obj).

(** A Firestore value, and a document: its fields by name. *)
Inductive fsval : Type :=
| NullValue
| StringValue (s : string)
| IntegerValue (n : Z)
| BooleanValue (b : bool).

#[export] Instance fsval_eq_dec : EqDecision fsval.
Proof. solve_decision. Defined.

Abbreviation fsdoc := (gmap string fsval).

(** The isolate and what it talks to: the [verifications] collection
    (documents by id, in the order a query lists them), what was sent,
    the clock, and crypto.randomUUID. *)
Record world : Type := World {
  docs : list (string * fsdoc);
  sent : list effect;
  clock : Z;
  uuid_source : nat -> string;
  uuid_drawn : nat
}.

Definition set_docs (f : list (string * fsdoc) -> list (string * fsdoc)) (w : world) : world :=
  World (f (docs w)) (sent w) (clock w) (uuid_source w) (uuid_drawn w).

Definition emit (e : effect) (w : world) : world :=
  World (docs w) (sent w ++ [e]) (clock w) (uuid_source w) (uuid_drawn w).

Definition at_time (t : Z) (w : world) : world :=
  World (docs w) (sent w) t (uuid_source w) (uuid_drawn w).

(** The bindings of [env] the handlers read. *)
Record env : Type := Env {
  BOT_USERNAME : string;
  MAX_SESSION_AGE : option Z
}.

(** A Telegram update. *)
Record message : Type := Message {
  chat_id : Z;
  from_id : Z;
  text : option string;
  msg_contact : option contact
}.

Record update : Type := Update { upd_message : option message }.

Definition Date_now : proc world Z := step (fun w => (w, clock w)).

Definition randomUUID : proc world string :=
  step (fun w =>
    (World (docs w) (sent w) (clock w) (uuid_source w) (S (uuid_drawn w)),
     uuid_source w (uuid_drawn w))).

(** *** The Firestore client *)

Definition toFirestore (data : obj) : fsdoc :=
  omap (fun v =>
    match v with
    | VNull => Some NullValue
    | VStr s => Some (StringValue s)
    | VNum n => Some (IntegerValue n)
    | VBool b => Some (BooleanValue b)
    | VUndef => None
    end) data.

(** fromFirestore keeps a field when its value is truthy; the REST
    answer carries an integer as a non-empty string, so every integer
    is kept. A document without fields decodes to [null]. *)
Definition decode_field (f : fsval) : option val :=
  match f with
  | StringValue s => if String.eqb s "" then None else Some (VStr s)
  | IntegerValue n => Some (VNum n)
  | BooleanValue b => if b then Some (VBool true) else None
  | NullValue => None
  end.

Definition fromFirestore (doc : fsdoc) : option obj :=
  if bool_decide (doc = ∅) then None else Some (omap decode_field doc).

(** PATCH without a mask: the document becomes the body, whether or
    not one was there. *)
Definition createDoc (id : string) (data : obj) : proc world unit :=
  remote (fun w => (set_docs (map_set id (toFirestore data)) w, tt)).

(** PATCH with updateMask: each masked field takes its value from the
    body or, when the body lacks it, is removed; the other fields stay;
    a missing document is created. *)
Definition updateDoc (id : string) (data : obj) : proc world unit :=
  remote (fun w =>
    let old := default ∅ (map_get id (docs w)) in
    let new := toFirestore data ∪ filter (fun kv => data !! kv.1 = None) old in
    (set_docs (map_set id new) w, tt)).

Definition getDoc (id : string) : proc world (option obj) :=
  remote (fun w =>
    (w, match map_get id (docs w) with
        | Some doc => fromFirestore doc
        | None => None
        end)).

(** runQuery [field == value] with a number: the matching documents,
    decoded. A match has the queried field, so it has fields. *)
Definition queryDocs (field : string) (value : Z) : proc world (list (string * obj)) :=
  remote (fun w =>
    (w, map (fun '(id, doc) => (id, omap decode_field doc))
          (filter (fun '(id, doc) => doc !! field = Some (IntegerValue value)) (docs w)))).

(** *** Helpers *)

Definition jsonResp (data : obj) (status : Z) : response := Json status (json data).

Definition ok_resp : response := jsonResp {[ "ok" := VBool true ]} 200.

Definition sendTelegramMessage (chat : Z) (text : message_text) : proc world unit :=
  remote (fun w => (emit (TelegramMessage chat text) w, tt)).

(** fetch(url, {method: "POST", body: JSON.stringify(body)}), not awaited. *)
Definition fetch_post (url : val) (body : obj) : proc world unit :=
  step (fun w => (emit (WebhookFetch url (json body)) w, tt)).

Section Handlers.
(** Built-ins of the runtime: Date.prototype.toISOString, the instant
    [new Date(s)] stands for (none for an invalid date), and the
    protocol of [new URL(s)] (none when it throws). *)
Variable toISOString : Z -> string.
Variable Date_parse : string -> option Z.
Variable URL_protocol : string -> option string.
Variable e : env.

(** The time value of [new Date(v)]. *)
Definition Date_of (v : val) : option Z :=
  match v with
  | VStr s => Date_parse s
  | VNum n => Some n
  | VBool b => Some (if b then 1 else 0)
  | VNull => Some 0
  | VUndef => None
  end.

(** [new Date(v) < new Date()]. *)
Definition date_before_now (v : val) (now : Z) : bool :=
  match Date_of v with Some t => t <? now | None => false end.

Definition validateWebhookUrl (url : val) : bool :=
  if negb (truthy url) then true
  else
    match url with
    | VStr s => bool_decide (URL_protocol s = Some "https:")
    | _ => false
    end.

Definition session_age : Z :=
  match MAX_SESSION_AGE e with
  | Some n => if n =? 0 then 3600 else n
  | None => 3600
  end.

Definition handleInit (body : obj) : proc world response :=
  if negb (truthy (prop body "phone")) || negb (validatePhoneNumber (prop body "phone"))
  then mret (jsonResp {[ "error" := VStr "Valid phone number is required" ]} 400)
  else if truthy (prop body "webhook_url") && negb (validateWebhookUrl (prop body "webhook_url"))
  then mret (jsonResp {[ "error" := VStr "Webhook URL must be a valid HTTPS URL" ]} 400)
  else
    match prop body "phone" with
    | VStr phone =>
        token ← randomUUID;
        let normalizedPhone := normalizePhone phone in
        created ← Date_now;
        now ← Date_now;
        let docData : obj :=
          {[ "status" := VStr "pending";
             "expected_phone" := VStr normalizedPhone;
             "webhook_url" := or_else (prop body "webhook_url") VNull;
             "client_secret" := or_else (prop body "client_secret") VNull;
             "created_at" := VStr (toISOString created);
             "expires_at" := VStr (toISOString (now + session_age * 1000)) ]} in
        _ ← createDoc token docData;
        mret (jsonResp
                {[ "token" := VStr token;
                   "bot_link" := VStr ("https://t.me/" +:+ BOT_USERNAME e +:+ "?start=" +:+ token);
                   "expires_in" := VNum session_age ]} 200)
    | _ => mret (jsonResp {[ "error" := VStr "Valid phone number is required" ]} 400)
    end.

Definition handleCheck (token : string) : proc world response :=
  doc ← getDoc token;
  match doc with
  | None => mret (jsonResp {[ "error" := VStr "Token not found" ]} 404)
  | Some doc =>
      now ← Date_now;
      if truthy (prop doc "expires_at") && date_before_now (prop doc "expires_at") now
      then
        _ ← updateDoc token {[ "status" := VStr "expired" ]};
        let doc := <[ "status" := VStr "expired" ]> doc in
        let safeData := delete "client_secret" doc in
        mret (jsonResp safeData 200)
      else
        let safeData := delete "client_secret" doc in
        mret (jsonResp safeData 200)
  end.

(** A. Handle /start <token>. *)
Definition handleStart (msg : message) : proc world unit :=
  let chatId := chat_id msg in
  match text msg with
  | Some txt =>
      if truthy (VStr txt) && startsWith txt "/start "
      then
        match index (split " " txt) 1 with
        | VStr token =>
            if truthy (VStr token)
            then
              session ← getDoc token;
              match session with
              | Some session =>
                  if strict_eq (prop session "status") (VStr "pending")
                  then
                    _ ← updateDoc token {[ "chat_id" := VNum chatId ]};
                    sendTelegramMessage chatId SecurityCheck
                  else sendTelegramMessage chatId InvalidOrExpired
              | None => sendTelegramMessage chatId InvalidOrExpired
              end
            else mret tt
        | _ => mret tt
        end
      else mret tt
  | None => mret tt
  end.

(** B. Handle Contact Shared. *)
Definition handleContact (msg : message) : proc world response :=
  let chatId := chat_id msg in
  match msg_contact msg with
  | None => mret ok_resp
  | Some c =>
      if strict_ne (user_id_val c) (VNum (from_id msg))
      then
        _ ← sendTelegramMessage chatId CannotForward;
        mret ok_resp
      else
        sessions ← queryDocs "chat_id" chatId;
        match find (fun '(id, data) => strict_eq (prop data "status") (VStr "pending")) sessions with
        | None =>
            _ ← sendTelegramMessage chatId NoActiveVerification;
            mret ok_resp
        | Some (token, data) =>
            let telegramPhone := normalizePhone (phone_number c) in
            if strict_ne (VStr telegramPhone) (prop data "expected_phone")
            then
              _ ← sendTelegramMessage chatId PhoneMismatch;
              mret ok_resp
            else
              let updateData : obj :=
                {[ "status" := VStr "verified";
                   "phone" := VStr (phone_number c);
                   "telegram_id" := user_id_val c;
                   "first_name" := VStr (first_name c) ]} in
              _ ← updateDoc token updateData;
              _ ← (if truthy (prop data "webhook_url")
                   then
                     fetch_post (prop data "webhook_url")
                       (<[ "secret" := prop data "client_secret" ]>
                          (spread {[ "event" := VStr "verification_success";
                                     "token" := VStr token ]}
                                  updateData))
                   else mret tt);
              _ ← sendTelegramMessage chatId Verified;
              mret ok_resp
        end
  end.

Definition handleTelegramWebhook (u : update) : proc world response :=
  match upd_message u with
  | Some msg =>
      _ ← handleStart msg;
      handleContact msg
  | None => mret ok_resp
  end.
End Handlers.

End Worker.

(** ** The phone normalizer, as specified *)

Module PhoneSpec.

(** The normalizer as the specification words it: keep the digits;
    when they are ten and start with 0 then 9, put 251 in place of the
    leading 0. *)
Definition digits_of (raw : string) : string :=
  string_of_list_ascii (List.filter is_digit (list_ascii_of_string raw)).

Definition normalize (raw : string) : string :=
  let digits := digits_of raw in
  match digits with
  | String "0" (String "9" rest) =>
      if (String.length digits =? 10)%nat
      then String "2" (String "5" (String "1" (String "9" rest)))
      else digits
  | _ => digits
  end.

Definition all_digits (s : string) : Prop :=
  Forall (fun c => is_digit c = true) (list_ascii_of_string s).

End PhoneSpec.

Import PhoneSpec.

(** ** What the theorems observe *)

Module Views.

(** The fields the server's contact handler writes on a match. *)
Definition verified_fields (c : contact) (now : Z) : obj :=
  {[ "status" := VStr "verified";
     "phone" := VStr (phone_number c);
     "telegram_id" := user_id_val c;
     "first_name" := VStr (first_name c);
     "verified_at" := VNum now ]}.

(** The webhook request of a commit in the server, if the session
    names a webhook. *)
Definition webhook_of (tok : string) (s : obj) (c : contact) (now : Z)
    : list Server.effect :=
  if truthy (prop s "webhook_url")
  then [Server.WebhookPost (prop s "webhook_url")
          (json (<[ "secret" := prop s "client_secret" ]>
                   (spread {[ "event" := VStr "verification_success";
                              "token" := VStr tok ]}
                           (verified_fields c now))))]
  else [].

(** The fields the worker's contact handler writes on a match. *)
Definition worker_fields (c : contact) : obj :=
  {[ "status" := VStr "verified";
     "phone" := VStr (phone_number c);
     "telegram_id" := user_id_val c;
     "first_name" := VStr (first_name c) ]}.

Definition worker_webhook_of (tok : string) (data : obj) (c : contact)
    : list Worker.effect :=
  if truthy (prop data "webhook_url")
  then [Worker.WebhookFetch (prop data "webhook_url")
          (json (<[ "secret" := prop data "client_secret" ]>
                   (spread {[ "event" := VStr "verification_success";
                              "token" := VStr tok ]}
                           (worker_fields c))))]
  else [].

(** The session the worker's contact handler picks for a chat: the
    first pending one among the documents bound to it. *)
Definition worker_active (v : Worker.world) (chat : Z) : option (string * obj) :=
  find (fun '(id, data) => strict_eq (prop data "status") (VStr "pending"))
       (snd (run (Worker.queryDocs "chat_id" chat) v)).

(** What updateDoc leaves of a document [old] under the fields [data]. *)
Definition patched (data : obj) (old : Worker.fsdoc) : Worker.fsdoc :=
  Worker.toFirestore data ∪ filter (fun kv => data !! kv.1 = None) old.

(** A contact message from [from] in [chat]. *)
Definition contact_message (chat from : Z) (c : contact) : Worker.update :=
  Worker.Update (Some (Worker.Message chat from None (Some c))).

(** A text message. *)
Definition text_message (chat from : Z) (txt : string) : Worker.update :=
  Worker.Update (Some (Worker.Message chat from (Some txt) None)).

(** The webhook requests among what the server sent. *)
Definition webhook_posts (l : list Server.effect) : list Server.effect :=
  List.filter (fun e => match e with Server.WebhookPost _ _ => true | _ => false end) l.

Definition webhook_fetches (l : list Worker.effect) : list Worker.effect :=
  List.filter (fun e => match e with Worker.WebhookFetch _ _ => true | _ => false end) l.

(** A server handler that, while the session map is [S], does not write
    it and sends exactly [l], in that order. *)
Fixpoint quiet {A} (S : list (string * obj)) (l : list Server.effect)
    (p : proc Server.world A) : Prop :=
  match p with
  | Ret _ => l = []
  | Yield k => quiet S l k
  | Act act k =>
      forall w, Server.sessions w = S ->
        exists b,
          (act w = (w, b) /\ quiet S l (k b))
          \/ (exists e l', l = e :: l' /\ act w = (Server.emit e w, b) /\ quiet S l' (k b))
  end.

(** [tok] is the only session that may be pending and bound to [chat]. *)
Definition sole_candidate (chat : Z) (tok : string) (m : list (string * obj)) : Prop :=
  forall k o, (k, o) ∈ m -> k <> tok ->
    strict_eq (prop o "chat_id") (VNum chat) && strict_eq (prop o "status") (VStr "pending")
    = false.

(** A store with the client_secret of every record taken out: two
    stores with the same image differ in client_secret only. *)
Definition hide_secrets {A} (m : list (string * gmap string A)) : list (string * gmap string A) :=
  map (fun '(t, o) => (t, delete "client_secret" o)) m.

End Views.

Import Views.

(** ** A run of the protocol, used to instantiate the theorems *)

Module Scenario.

Definition uuids (n : nat) : string :=
  match n with O => "tok-A" | _ => "tok-B" end.

Definition own_card : contact := Contact "+251 911 234567" "Abebe" (Some 42).
Definition other_card : contact := Contact "0922000000" "Abebe" (Some 42).
Definition forwarded_card : contact := Contact "+251911234567" "Abebe" (Some 7).

(** The server: a session is created at time 1000, then bound to chat 555. *)
Definition s_fresh : Server.world := Server.World [] [] [] 1000 uuids 0.

Definition s_pending : Server.world :=
  fst (run (Server.createSession "0911234567" (VStr "https://app.example/hook") (VStr "s3cret"))
           s_fresh).

Definition s_bound : Server.world :=
  fst (run (Server.on_start 555 "/start tok-A") s_pending).

Definition s_verified : Server.world :=
  fst (run (Server.on_contact 555 42 own_card) s_bound).

(** The worker: the same steps. *)
Definition iso (t : Z) : string := "2025-12-05T09:50:23.000Z".
Definition parse (s : string) : option Z := Some 3601000.
Definition protocol (s : string) : option string := Some "https:".
Definition bindings : Worker.env := Worker.Env "FreeAuthBot" None.

Definition v_fresh : Worker.world := Worker.World [] [] 1000 uuids 0.

Definition v_pending : Worker.world :=
  fst (run (Worker.handleInit iso protocol bindings
              {[ "phone" := VStr "0911234567";
                 "webhook_url" := VStr "https://app.example/hook";
                 "client_secret" := VStr "s3cret" ]})
           v_fresh).

Definition v_bound : Worker.world :=
  fst (run (Worker.handleTelegramWebhook (text_message 555 42 "/start tok-A")) v_pending).

Definition v_verified : Worker.world :=
  fst (run (Worker.handleTelegramWebhook (contact_message 555 42 own_card)) v_bound).

(** The same runs, for a caller with another secret. *)
Definition s_verified' : Server.world :=
  let w1 := fst (run (Server.createSession "0911234567" (VStr "https://app.example/hook")
                        (VStr "hunter2")) s_fresh) in
  let w2 := fst (run (Server.on_start 555 "/start tok-A") w1) in
  fst (run (Server.on_contact 555 42 own_card) w2).

Definition v_verified' : Worker.world :=
  let v1 := fst (run (Worker.handleInit iso protocol bindings
                        {[ "phone" := VStr "0911234567";
                           "webhook_url" := VStr "https://app.example/hook";
                           "client_secret" := VStr "hunter2" ]})
                     v_fresh) in
  let v2 := fst (run (Worker.handleTelegramWebhook (text_message 555 42 "/start tok-A")) v1) in
  fst (run (Worker.handleTelegramWebhook (contact_message 555 42 own_card)) v2).

End Scenario.

(** ** The events the server handles *)

Module Events.

(** A Telegram /start message, a Telegram contact message, a status
    check over HTTP. *)
Inductive event : Type :=
| Start (chat : Z) (text : string)
| ContactShared (chat from : Z) (c : contact)
| StatusCheck (token : string).

Definition handle (e : event) : proc Server.world unit :=
  match e with
  | Start chat text => Server.on_start chat text
  | ContactShared chat from c => Server.on_contact chat from c
  | StatusCheck token => _ ← Server.check token; mret tt
  end.

(** The events one after the other, each run to its end. *)
Fixpoint handle_all (es : list event) (w : Server.world) : Server.world :=
  match es with
  | [] => w
  | e :: es' => handle_all es' (fst (run (handle e) w))
  end.

(** The session fields the handlers write. *)
Definition handler_fields : list string :=
  ["chat_id"; "status"; "phone"; "telegram_id"; "first_name"; "verified_at"].

(** The field [k] of the session stored under [token], if any. *)
Definition field_of (w : Server.world) (token k : string) : option val :=
  map_get token (Server.sessions w) ≫= fun s => s !! k.

(** What a handler may do to the map: leave it as it is, or overlay one
    stored record with fields among [handler_fields], none of them a
    pending status. *)
Definition handler_write (m m' : list (string * obj)) : Prop :=
  m' = m
  \/ exists tok ex (data : obj),
       map_get tok m = Some ex
       /\ m' = map_set tok (spread ex data) m
       /\ (forall k, k ∉ handler_fields -> data !! k = None)
       /\ (data !! "status" = None
           \/ (exists st, data !! "status" = Some (VStr st) /\ st <> "pending")).

End Events.

Import Events.

(** ** What Firestore gives back *)

Module Codec.

(** A value written with toFirestore and read with fromFirestore:
    numbers and truthy values come back, the rest reads as undefined. *)
Definition readback (v : val) : val :=
  match v with
  | VNum _ => v
  | _ => if truthy v then v else VUndef
  end.

End Codec.

Import Codec.

(** * Theorems *)

(** ** The phone normalizer *)

Lemma strip_non_digits_filter raw : strip_non_digits raw = digits_of raw.
Proof.
  unfold digits_of. induction raw as [|c r IH]; simpl; [reflexivity|].
  destruct (is_digit c); simpl; congruence.
Qed.

Lemma strip_all_digits raw : all_digits (strip_non_digits raw).
Proof.
  unfold all_digits. induction raw as [|c r IH]; simpl; [constructor|].
  destruct (is_digit c) eqn:E; simpl; auto.
Qed.

Lemma strip_fixed s : all_digits s -> strip_non_digits s = s.
Proof.
  unfold all_digits. induction s as [|c r IH]; simpl; intros H; [reflexivity|].
  inversion H as [|? ? Hc Hr]; subst. rewrite Hc. f_equal. auto.
Qed.

Lemma strip_idempotent raw :
  strip_non_digits (strip_non_digits raw) = strip_non_digits raw.
Proof. apply strip_fixed, strip_all_digits. Qed.

Lemma normalizePhone_unfold raw :
  normalizePhone raw =
    let cleaned := strip_non_digits raw in
    if startsWith cleaned "09" && (String.length cleaned =? 10)%nat
    then String.append "251" (substring1 cleaned)
    else cleaned.
Proof.
  unfold normalizePhone. destruct raw; reflexivity.
Qed.

Lemma normalizePhone_all_digits raw : all_digits (normalizePhone raw).
Proof.
  rewrite normalizePhone_unfold. cbv zeta.
  pose proof (strip_all_digits raw) as H.
  destruct (startsWith (strip_non_digits raw) "09" && _)%bool; [|exact H].
  destruct (strip_non_digits raw) as [|c r]; unfold all_digits in *; simpl in *.
  - repeat constructor.
  - inversion H; subst. repeat constructor; assumption.
Qed.

Lemma startsWith_09_inv s :
  startsWith s "09" = true -> exists rest, s = String "0" (String "9" rest).
Proof.
  destruct s as [|a [|b r]]; cbn [startsWith]; try discriminate.
  - rewrite andb_false_r. discriminate.
  - intros [Ha [Hb _]%andb_prop]%andb_prop.
    apply Ascii.eqb_eq in Ha, Hb. subst. eauto.
Qed.

Lemma startsWith_09_match (s : string) :
  startsWith s "09" = false ->
  match s with
  | String "0" (String "9" _) => False
  | _ => True
  end.
Proof.
  intros H.
  destruct s as [|a [|b r]]; [exact I| |].
  - destruct a as [[] [] [] [] [] [] [] []]; exact I.
  - destruct a as [[] [] [] [] [] [] [] []]; try exact I;
    destruct b as [[] [] [] [] [] [] [] []]; try exact I.
    cbn in H. discriminate.
Qed.

(** C9. normalizePhone keeps the digits of its input and, when they
    are ten digits starting with 09, puts 251 in place of the leading
    0 (twelve digits); otherwise the digits are the result. The three
    values the specification lists are the ones computed. *)
Theorem normalizePhone_meets_spec :
  (forall raw, normalizePhone raw = normalize raw)
  /\ (forall raw, all_digits (normalizePhone raw))
  /\ (forall raw,
        startsWith (digits_of raw) "09" = true ->
        String.length (digits_of raw) = 10%nat ->
        normalizePhone raw = String.append "251" (substring1 (digits_of raw))
        /\ String.length (normalizePhone raw) = 12%nat)
  /\ (forall raw,
        startsWith (digits_of raw) "09" = false \/ String.length (digits_of raw) <> 10%nat ->
        normalizePhone raw = digits_of raw)
  /\ normalizePhone "0911234567" = "251911234567"
  /\ normalizePhone "+251911234567" = "251911234567"
  /\ normalizePhone "" = "".
Proof.
  split; [|split; [|split; [|split]]].
  - intros raw. rewrite normalizePhone_unfold. cbv zeta.
    unfold normalize. rewrite <- strip_non_digits_filter.
    destruct (startsWith (strip_non_digits raw) "09") eqn:P.
    + apply startsWith_09_inv in P as [rest ->]. cbn.
      destruct (String.length rest =? 8)%nat; reflexivity.
    + apply startsWith_09_match in P. rewrite andb_false_l.
      destruct (strip_non_digits raw) as [|a [|b r]]; [reflexivity| |].
      * destruct a as [[] [] [] [] [] [] [] []]; reflexivity.
      * destruct a as [[] [] [] [] [] [] [] []]; try reflexivity;
        destruct b as [[] [] [] [] [] [] [] []]; try reflexivity.
        destruct P.
  - apply normalizePhone_all_digits.
  - intros raw P L. rewrite normalizePhone_unfold. cbv zeta.
    rewrite strip_non_digits_filter, P, L. cbn [andb Nat.eqb]. split; [reflexivity|].
    apply startsWith_09_inv in P as [rest E]. rewrite E in *.
    cbv [String.append substring1 String.length] in *. lia.
  - intros raw H. rewrite normalizePhone_unfold. cbv zeta.
    rewrite strip_non_digits_filter.
    destruct H as [-> | H]; [reflexivity|].
    apply Nat.eqb_neq in H. rewrite H, andb_false_r. reflexivity.
  - repeat split; reflexivity.
Qed.

Lemma normalizePhone_spec_witness :
  normalizePhone "(091) 123-4567" = "251911234567"
  /\ String.length (normalizePhone "(091) 123-4567") = 12%nat.
Proof.
  destruct normalizePhone_meets_spec as (_ & _ & H & _).
  destruct (H "(091) 123-4567") as [H1 H2]; [reflexivity|reflexivity|].
  split; [exact H1|exact H2].
Defined.

Lemma normalizePhone_idem s : normalizePhone (normalizePhone s) = normalizePhone s.
Proof.
  rewrite (normalizePhone_unfold (normalizePhone s)). cbv zeta.
  rewrite (strip_fixed _ (normalizePhone_all_digits s)).
  rewrite normalizePhone_unfold. cbv zeta.
  destruct (startsWith (strip_non_digits s) "09" && _)%bool eqn:E.
  - reflexivity.
  - rewrite E. reflexivity.
Qed.

(** ** The insertion-ordered map *)

Section MapFacts.
Context {V : Type}.
Implicit Types (m : list (string * V)) (k : string) (v : V).

Lemma map_get_set_eq k v m : map_get k (map_set k v m) = Some v.
Proof.
  induction m as [|[k' v'] r IH]; cbn.
  - rewrite String.eqb_refl. reflexivity.
  - destruct (String.eqb k k') eqn:E; cbn; rewrite ?E, ?String.eqb_refl; auto.
Qed.

Lemma map_get_set_ne k k' v m :
  k <> k' -> map_get k' (map_set k v m) = map_get k' m.
Proof.
  intros Hne. induction m as [|[k0 v0] r IH]; cbn.
  - destruct (String.eqb_spec k' k); congruence.
  - destruct (String.eqb_spec k k0) as [->|]; cbn.
    + destruct (String.eqb_spec k' k0); congruence.
    + rewrite IH. reflexivity.
Qed.

Lemma map_get_elem k v m : map_get k m = Some v -> (k, v) ∈ m.
Proof.
  induction m as [|[k' v'] r IH]; cbn; [discriminate|].
  destruct (String.eqb_spec k k') as [->|].
  - intros [= ->]. left.
  - intros H. right. auto.
Qed.

Lemma map_get_None k m : map_get k m = None -> k ∉ m.*1.
Proof.
  induction m as [|[k' v'] r IH]; cbn; [intros _; apply not_elem_of_nil|].
  destruct (String.eqb_spec k k') as [->|]; [discriminate|].
  intros H. apply not_elem_of_cons. auto.
Qed.

Lemma map_get_unique k v m : NoDup m.*1 -> (k, v) ∈ m -> map_get k m = Some v.
Proof.
  induction m as [|[k' v'] r IH]; cbn; intros Hnd Hin.
  - apply elem_of_nil in Hin as [].
  - apply NoDup_cons in Hnd as [Hk Hnd].
    apply elem_of_cons in Hin as [[= -> ->]|Hin].
    + rewrite String.eqb_refl. reflexivity.
    + destruct (String.eqb_spec k k') as [->|]; [|auto].
      exfalso. apply Hk. apply list_elem_of_fmap. exists (k', v). auto.
Qed.

Lemma map_get_find (P : string * V -> bool) k v m :
  NoDup m.*1 -> find P m = Some (k, v) -> map_get k m = Some v /\ P (k, v) = true.
Proof.
  intros Hnd Hf. apply find_some in Hf as [Hin HP]. split; [|exact HP].
  apply map_get_unique; [exact Hnd|]. apply list_elem_of_In. exact Hin.
Qed.

Lemma map_set_set k v v' m : map_set k v (map_set k v' m) = map_set k v m.
Proof.
  induction m as [|[k0 v0] r IH]; cbn.
  - rewrite String.eqb_refl. reflexivity.
  - destruct (String.eqb k k0) eqn:E; cbn; rewrite ?String.eqb_refl, ?E; congruence.
Qed.

Lemma map_set_keys k v v' m :
  map_get k m = Some v' -> (map_set k v m).*1 = m.*1.
Proof.
  induction m as [|[k0 v0] r IH]; cbn; [discriminate|].
  destruct (String.eqb_spec k k0) as [->|]; cbn; [reflexivity|].
  intros H. rewrite IH; auto.
Qed.
End MapFacts.

(** ** Running handlers *)

Section RunFacts.
Context {W : Type}.

Lemma run_bind {A B} (p : proc W A) (f : A -> proc W B) w :
  run (p ≫= f) w = let (w', a) := run p w in run (f a) w'.
Proof.
  unfold mbind, proc_bind. revert w.
  induction p as [a|C act k IH|k IH]; intros w; cbn.
  - reflexivity.
  - destruct (act w) as [w' b]. apply IH.
  - apply IH.
Qed.

Lemma run_await {A} (p : proc W A) w : run (await p) w = run p w.
Proof.
  unfold await. change (bind p ?f) with (p ≫= f). rewrite run_bind.
  destruct (run p w). reflexivity.
Qed.

Lemma run_step {B} (act : W -> W * B) w : run (step act) w = act w.
Proof. cbn. destruct (act w). reflexivity. Qed.

Lemma run_remote {B} (act : W -> W * B) w : run (remote act) w = act w.
Proof. cbn. destruct (act w). reflexivity. Qed.

Lemma run_ret {A} (a : A) w : run (mret a : proc W A) w = (w, a).
Proof. reflexivity. Qed.
End RunFacts.

(** ** The ownership check *)

Lemma strict_ne_user_id c (from : Z) :
  user_id c <> Some from -> strict_ne (user_id_val c) (VNum from) = true.
Proof.
  intros H. unfold strict_ne, strict_eq, user_id_val.
  destruct (user_id c) as [n|]; [|reflexivity].
  rewrite bool_decide_eq_false_2; [reflexivity|congruence].
Qed.

Lemma strict_ne_user_id_own c (from : Z) :
  user_id c = Some from -> strict_ne (user_id_val c) (VNum from) = false.
Proof.
  intros H. unfold strict_ne, strict_eq, user_id_val. rewrite H.
  rewrite bool_decide_eq_true_2; reflexivity.
Qed.

Lemma server_forwarded_contact_rejected (w : Server.world) chat from c :
  user_id c <> Some from ->
  run (Server.on_contact chat from c) w
  = (Server.emit (Server.ChatReply chat Server.SecurityError) w, tt).
Proof.
  intros H. unfold Server.on_contact. rewrite strict_ne_user_id by exact H.
  reflexivity.
Qed.

Lemma worker_forwarded_contact_rejected (w : Worker.world) msg c :
  Worker.text msg = None ->
  Worker.msg_contact msg = Some c ->
  user_id c <> Some (Worker.from_id msg) ->
  run (Worker.handleTelegramWebhook (Worker.Update (Some msg))) w
  = (Worker.emit (Worker.TelegramMessage (Worker.chat_id msg) Worker.CannotForward) w,
     Worker.ok_resp).
Proof.
  intros Ht Hc H. unfold Worker.handleTelegramWebhook, Worker.handleStart, Worker.handleContact.
  cbn. rewrite Ht, Hc. rewrite strict_ne_user_id by exact H.
  reflexivity.
Qed.

(** C4. A contact card whose user_id is not the sender's id is answered
    with the security error and nothing else happens: the session store
    (every session in it) is the one before the message, in the server
    and in the worker. *)
Theorem forwarded_contact_leaves_store_unchanged
    (w : Server.world) (chat from : Z) (c : contact)
    (v : Worker.world) (msg : Worker.message) (c' : contact) :
  user_id c <> Some from ->
  Worker.text msg = None ->
  Worker.msg_contact msg = Some c' ->
  user_id c' <> Some (Worker.from_id msg) ->
  (let w' := fst (run (Server.on_contact chat from c) w) in
   Server.sessions w' = Server.sessions w
   /\ Server.timers w' = Server.timers w
   /\ Server.sent w' = (Server.sent w ++ [Server.ChatReply chat Server.SecurityError])%list)
  /\
  (let v' := fst (run (Worker.handleTelegramWebhook (Worker.Update (Some msg))) v) in
   Worker.docs v' = Worker.docs v
   /\ Worker.sent v' = (Worker.sent v
        ++ [Worker.TelegramMessage (Worker.chat_id msg) Worker.CannotForward])%list).
Proof.
  intros H Ht Hc H'. split.
  - rewrite server_forwarded_contact_rejected by exact H. repeat split.
  - rewrite (worker_forwarded_contact_rejected v msg c') by assumption. repeat split.
Qed.

(** ** Contact handling in the server *)

Lemma strict_ne_true (a b : val) : a <> b -> strict_ne a b = true.
Proof.
  intros H. unfold strict_ne, strict_eq. rewrite bool_decide_eq_false_2; auto.
Qed.

Lemma strict_ne_false (a b : val) : a = b -> strict_ne a b = false.
Proof.
  intros H. unfold strict_ne, strict_eq. rewrite bool_decide_eq_true_2; auto.
Qed.

Lemma strict_eq_true (a b : val) : strict_eq a b = true <-> a = b.
Proof. unfold strict_eq. apply bool_decide_eq_true. Qed.

Section ServerContact.
Import Server.

Lemma run_findByChatId (w : world) chat :
  run (storage_findByChatId chat) w = (w, snd (run (storage_findByChatId chat) w)).
Proof. reflexivity. Qed.

(** What findByChatId returns is an entry of the map, pending and
    bound to the chat. *)
Lemma findByChatId_found (w : world) chat tok s :
  NoDup (sessions w).*1 ->
  snd (run (storage_findByChatId chat) w) = Some (tok, s) ->
  map_get tok (sessions w) = Some s
  /\ prop s "chat_id" = VNum chat
  /\ prop s "status" = VStr "pending".
Proof.
  intros Hnd Hf. cbn in Hf. apply map_get_find in Hf as [Hg HP]; [|exact Hnd].
  split; [exact Hg|]. apply andb_prop in HP as [H1 H2].
  apply strict_eq_true in H1, H2. auto.
Qed.

Lemma server_contact_no_session (w : world) chat from c :
  user_id c = Some from ->
  snd (run (storage_findByChatId chat) w) = None ->
  run (on_contact chat from c) w = (emit (ChatReply chat SessionExpired) w, tt).
Proof.
  intros Hown Hfind. unfold on_contact.
  rewrite strict_ne_user_id_own by exact Hown.
  rewrite run_bind, run_findByChatId, Hfind. reflexivity.
Qed.

Lemma server_contact_mismatch (w : world) chat from c tok s :
  user_id c = Some from ->
  snd (run (storage_findByChatId chat) w) = Some (tok, s) ->
  VStr (normalizePhone (phone_number c)) <> prop s "expected_phone" ->
  run (on_contact chat from c) w = (emit (ChatReply chat VerificationFailed) w, tt).
Proof.
  intros Hown Hfind Hne. unfold on_contact.
  rewrite strict_ne_user_id_own by exact Hown.
  rewrite run_bind, run_findByChatId, Hfind.
  rewrite strict_ne_true by exact Hne. reflexivity.
Qed.

Lemma server_contact_commit (w : world) chat from c tok s :
  NoDup (sessions w).*1 ->
  user_id c = Some from ->
  snd (run (storage_findByChatId chat) w) = Some (tok, s) ->
  VStr (normalizePhone (phone_number c)) = prop s "expected_phone" ->
  let w' := fst (run (on_contact chat from c) w) in
  sessions w' = map_set tok (spread s (verified_fields c (clock w))) (sessions w)
  /\ sent w' = (sent w ++ webhook_of tok s c (clock w)
                 ++ [ChatReply chat (VerificationComplete (first_name c))])%list
  /\ timers w' = timers w /\ clock w' = clock w.
Proof.
  intros Hnd Hown Hfind Heq.
  destruct (findByChatId_found w chat tok s Hnd Hfind) as (Hget & _ & _).
  unfold on_contact.
  rewrite strict_ne_user_id_own by exact Hown.
  rewrite run_bind, run_findByChatId, Hfind.
  rewrite strict_ne_false by exact Heq.
  rewrite run_bind. unfold Date_now. rewrite run_step.
  rewrite run_bind, run_await. unfold storage_update. rewrite run_step, Hget.
  rewrite run_bind. unfold webhook_of, verified_fields.
  destruct (truthy (prop s "webhook_url")).
  - rewrite run_await. unfold axios_post. rewrite run_step, run_await.
    unfold ctx_reply. rewrite run_step. cbn. rewrite <- app_assoc. auto.
  - rewrite run_ret, run_await. unfold ctx_reply. rewrite run_step. cbn. auto.
Qed.
End ServerContact.

(** ** Contact handling in the worker *)

Section WorkerContact.
Import Worker.

Lemma worker_active_found (v : world) chat tok data :
  NoDup (docs v).*1 ->
  worker_active v chat = Some (tok, data) ->
  exists d, map_get tok (docs v) = Some d
    /\ data = omap decode_field d
    /\ d !! "chat_id" = Some (IntegerValue chat)
    /\ prop data "status" = VStr "pending".
Proof.
  intros Hnd Hf. unfold worker_active in Hf. cbn in Hf.
  apply find_some in Hf as [Hin HP].
  apply in_map_iff in Hin as ([id d] & [= <- <-] & Hin).
  apply list_elem_of_In, list_elem_of_filter in Hin as [Hc Hin].
  exists d. repeat split; auto.
  - apply map_get_unique; assumption.
  - apply strict_eq_true in HP. exact HP.
Qed.

Lemma run_contact_message (v : world) chat from c :
  run (handleTelegramWebhook (contact_message chat from c)) v
  = run (handleContact (Message chat from None (Some c))) v.
Proof. reflexivity. Qed.

Lemma worker_contact_mismatch (v : world) chat from c tok data :
  user_id c = Some from ->
  worker_active v chat = Some (tok, data) ->
  VStr (normalizePhone (phone_number c)) <> prop data "expected_phone" ->
  run (handleTelegramWebhook (contact_message chat from c)) v
  = (emit (TelegramMessage chat PhoneMismatch) v, ok_resp).
Proof.
  intros Hown Hfind Hne. rewrite run_contact_message. unfold handleContact.
  cbn [msg_contact chat_id from_id].
  rewrite strict_ne_user_id_own by exact Hown.
  rewrite run_bind. unfold queryDocs at 1. rewrite run_remote.
  unfold worker_active in Hfind. cbn in Hfind. cbn. rewrite Hfind.
  rewrite strict_ne_true by exact Hne. reflexivity.
Qed.

Lemma worker_contact_commit (v : world) chat from c tok data :
  user_id c = Some from ->
  worker_active v chat = Some (tok, data) ->
  VStr (normalizePhone (phone_number c)) = prop data "expected_phone" ->
  let v' := fst (run (handleTelegramWebhook (contact_message chat from c)) v) in
  docs v' = map_set tok (patched (worker_fields c) (default ∅ (map_get tok (docs v)))) (docs v)
  /\ sent v' = (sent v ++ worker_webhook_of tok data c
                 ++ [TelegramMessage chat Verified])%list.
Proof.
  intros Hown Hfind Heq. rewrite run_contact_message. unfold handleContact.
  cbn [msg_contact chat_id from_id].
  rewrite strict_ne_user_id_own by exact Hown.
  rewrite run_bind. unfold queryDocs at 1. rewrite run_remote.
  unfold worker_active in Hfind. cbn in Hfind. cbn. rewrite Hfind.
  rewrite strict_ne_false by exact Heq.
  unfold worker_webhook_of, worker_fields, patched.
  destruct (truthy (prop data "webhook_url")); cbn; rewrite <- ?app_assoc; auto.
Qed.
End WorkerContact.

(** ** Field by field *)

Lemma verified_fields_status c now : verified_fields c now !! "status" = Some (VStr "verified").
Proof. reflexivity. Qed.

Lemma worker_fields_status c : Worker.toFirestore (worker_fields c) !! "status" = Some (Worker.StringValue "verified").
Proof. unfold Worker.toFirestore. rewrite lookup_omap. reflexivity. Qed.

Lemma patched_status c old : patched (worker_fields c) old !! "status" = Some (Worker.StringValue "verified").
Proof. unfold patched. apply lookup_union_Some_l, worker_fields_status. Qed.

Lemma spread_status s c now : prop (spread s (verified_fields c now)) "status" = VStr "verified".
Proof. unfold prop, spread. erewrite lookup_union_Some_l; reflexivity. Qed.

(** ** A phone mismatch *)

Lemma server_mismatch_then_match (w : Server.world) chat from c1 from2 c2 tok s t :
  NoDup (Server.sessions w).*1 ->
  snd (run (Server.storage_findByChatId chat) w) = Some (tok, s) ->
  user_id c1 = Some from ->
  VStr (normalizePhone (phone_number c1)) <> prop s "expected_phone" ->
  user_id c2 = Some from2 ->
  VStr (normalizePhone (phone_number c2)) = prop s "expected_phone" ->
  let w1 := fst (run (Server.on_contact chat from c1) w) in
  Server.sessions w1 = Server.sessions w
  /\ Server.sent w1 = (Server.sent w ++ [Server.ChatReply chat Server.VerificationFailed])%list
  /\ map_get tok (Server.sessions w1) = Some s
  /\ prop s "status" = VStr "pending"
  /\ let w2 := fst (run (Server.on_contact chat from2 c2) (Server.at_time t w1)) in
     map_get tok (Server.sessions w2) = Some (spread s (verified_fields c2 t))
     /\ prop (spread s (verified_fields c2 t)) "status" = VStr "verified".
Proof.
  intros Hnd Hfind Hown1 Hne Hown2 Heq.
  destruct (findByChatId_found w chat tok s Hnd Hfind) as (Hget & _ & Hst).
  rewrite (server_contact_mismatch w chat from c1 tok s) by assumption.
  cbn zeta. cbn [fst]. repeat split; auto.
  - pose proof (server_contact_commit
      (Server.at_time t (Server.emit (Server.ChatReply chat Server.VerificationFailed) w))
      chat from2 c2 tok s Hnd Hown2 Hfind Heq) as (Hs & _).
    cbn zeta in Hs. rewrite Hs. apply map_get_set_eq.
  - apply spread_status.
Qed.

Lemma worker_active_pending (v : Worker.world) chat tok data :
  worker_active v chat = Some (tok, data) -> prop data "status" = VStr "pending".
Proof.
  unfold worker_active. intros Hf. apply find_some in Hf as [_ HP].
  apply strict_eq_true in HP. exact HP.
Qed.

Lemma worker_mismatch_then_match (v : Worker.world) chat from c1 from2 c2 tok data t :
  worker_active v chat = Some (tok, data) ->
  user_id c1 = Some from ->
  VStr (normalizePhone (phone_number c1)) <> prop data "expected_phone" ->
  user_id c2 = Some from2 ->
  VStr (normalizePhone (phone_number c2)) = prop data "expected_phone" ->
  let v1 := fst (run (Worker.handleTelegramWebhook (contact_message chat from c1)) v) in
  Worker.docs v1 = Worker.docs v
  /\ Worker.sent v1 = (Worker.sent v ++ [Worker.TelegramMessage chat Worker.PhoneMismatch])%list
  /\ prop data "status" = VStr "pending"
  /\ let v2 := fst (run (Worker.handleTelegramWebhook (contact_message chat from2 c2))
                       (Worker.at_time t v1)) in
     exists d', map_get tok (Worker.docs v2) = Some d'
       /\ d' !! "status" = Some (Worker.StringValue "verified").
Proof.
  intros Hfind Hown1 Hne Hown2 Heq.
  rewrite (worker_contact_mismatch v chat from c1 tok data) by assumption.
  cbn zeta. cbn [fst]. repeat split; auto.
  - eapply worker_active_pending; eauto.
  - pose proof (worker_contact_commit
      (Worker.at_time t (Worker.emit (Worker.TelegramMessage chat Worker.PhoneMismatch) v))
      chat from2 c2 tok data Hown2 Hfind Heq) as (Hs & _).
    cbn zeta in Hs. rewrite Hs. eexists. split; [apply map_get_set_eq|].
    apply patched_status.
Qed.

(** C8. When the normalized phone of a contact differs from the
    session's expected_phone, the chat is told that verification failed
    and the store is left as it was: the session stays pending, no field
    of it changes. A later contact in the same chat whose normalized
    phone is expected_phone then turns the session to verified. Server
    and worker. *)
Theorem phone_mismatch_keeps_pending_and_allows_retry
    (w : Server.world) (chat from from2 : Z) (c1 c2 : contact) (tok : string) (s : obj) (t : Z)
    (v : Worker.world) (chat' from' from2' : Z) (c1' c2' : contact) (tok' : string)
    (data : obj) (t' : Z) :
  NoDup (Server.sessions w).*1 ->
  snd (run (Server.storage_findByChatId chat) w) = Some (tok, s) ->
  user_id c1 = Some from ->
  VStr (normalizePhone (phone_number c1)) <> prop s "expected_phone" ->
  user_id c2 = Some from2 ->
  VStr (normalizePhone (phone_number c2)) = prop s "expected_phone" ->
  worker_active v chat' = Some (tok', data) ->
  user_id c1' = Some from' ->
  VStr (normalizePhone (phone_number c1')) <> prop data "expected_phone" ->
  user_id c2' = Some from2' ->
  VStr (normalizePhone (phone_number c2')) = prop data "expected_phone" ->
  (let w1 := fst (run (Server.on_contact chat from c1) w) in
   Server.sessions w1 = Server.sessions w
   /\ Server.sent w1 = (Server.sent w ++ [Server.ChatReply chat Server.VerificationFailed])%list
   /\ map_get tok (Server.sessions w1) = Some s
   /\ prop s "status" = VStr "pending"
   /\ let w2 := fst (run (Server.on_contact chat from2 c2) (Server.at_time t w1)) in
      map_get tok (Server.sessions w2) = Some (spread s (verified_fields c2 t))
      /\ prop (spread s (verified_fields c2 t)) "status" = VStr "verified")
  /\
  (let v1 := fst (run (Worker.handleTelegramWebhook (contact_message chat' from' c1')) v) in
   Worker.docs v1 = Worker.docs v
   /\ Worker.sent v1 = (Worker.sent v ++ [Worker.TelegramMessage chat' Worker.PhoneMismatch])%list
   /\ prop data "status" = VStr "pending"
   /\ let v2 := fst (run (Worker.handleTelegramWebhook (contact_message chat' from2' c2'))
                        (Worker.at_time t' v1)) in
      exists d', map_get tok' (Worker.docs v2) = Some d'
        /\ d' !! "status" = Some (Worker.StringValue "verified")).
Proof.
  intros. split.
  - apply server_mismatch_then_match; assumption.
  - apply worker_mismatch_then_match; assumption.
Qed.

Lemma phone_mismatch_witness :
  (let w1 := fst (run (Server.on_contact 555 42 Scenario.other_card) Scenario.s_bound) in
   Server.sessions w1 = Server.sessions Scenario.s_bound
   /\ let w2 := fst (run (Server.on_contact 555 42 Scenario.own_card) (Server.at_time 5000 w1)) in
      prop (default ∅ (map_get "tok-A" (Server.sessions w2))) "status" = VStr "verified")
  /\
  (let v1 := fst (run (Worker.handleTelegramWebhook (contact_message 555 42 Scenario.other_card))
                      Scenario.v_bound) in
   Worker.docs v1 = Worker.docs Scenario.v_bound).
Proof.
  pose proof (phone_mismatch_keeps_pending_and_allows_retry
    Scenario.s_bound 555 42 42 Scenario.other_card Scenario.own_card "tok-A"
    (default ∅ (map_get "tok-A" (Server.sessions Scenario.s_bound))) 5000
    Scenario.v_bound 555 42 42 Scenario.other_card Scenario.own_card "tok-A"
    (default ∅ (snd <$> worker_active Scenario.v_bound 555)) 7000) as H.
  destruct H as [(H1 & _ & _ & _ & H2 & H3) (H4 & _)].
  - vm_compute. apply NoDup_singleton.
  - vm_compute. reflexivity.
  - reflexivity.
  - vm_compute. discriminate.
  - reflexivity.
  - vm_compute. reflexivity.
  - vm_compute. reflexivity.
  - reflexivity.
  - vm_compute. discriminate.
  - reflexivity.
  - vm_compute. reflexivity.
  - cbn zeta in *. split; [split|]; [exact H1| |exact H4].
    rewrite H2. exact H3.
Defined.

Lemma forwarded_contact_witness :
  (let w' := fst (run (Server.on_contact 555 42 Scenario.forwarded_card) Scenario.s_bound) in
   Server.sessions w' = Server.sessions Scenario.s_bound
   /\ Server.timers w' = Server.timers Scenario.s_bound
   /\ Server.sent w' = (Server.sent Scenario.s_bound
                        ++ [Server.ChatReply 555 Server.SecurityError])%list)
  /\
  (let v' := fst (run (Worker.handleTelegramWebhook
                         (contact_message 555 42 Scenario.forwarded_card))
                      Scenario.v_bound) in
   Worker.docs v' = Worker.docs Scenario.v_bound
   /\ Worker.sent v' = (Worker.sent Scenario.v_bound
                        ++ [Worker.TelegramMessage 555 Worker.CannotForward])%list).
Proof.
  apply (forwarded_contact_leaves_store_unchanged
           Scenario.s_bound 555 42 Scenario.forwarded_card
           Scenario.v_bound (Worker.Message 555 42 None (Some Scenario.forwarded_card))
           Scenario.forwarded_card).
  - vm_compute. discriminate.
  - reflexivity.
  - reflexivity.
  - vm_compute. discriminate.
Defined.

(** ** The commit *)

Lemma webhook_posts_app l1 l2 : webhook_posts (l1 ++ l2) = (webhook_posts l1 ++ webhook_posts l2)%list.
Proof. apply List.filter_app. Qed.

Lemma webhook_fetches_app l1 l2 : webhook_fetches (l1 ++ l2) = (webhook_fetches l1 ++ webhook_fetches l2)%list.
Proof. apply List.filter_app. Qed.

(** In the server the commit is as claimed: the five fields are
    written, the others stay, and the webhook body has the eight
    fields. *)
Lemma server_commit_record_and_webhook (w : Server.world) chat from c tok s :
  NoDup (Server.sessions w).*1 ->
  user_id c = Some from ->
  snd (run (Server.storage_findByChatId chat) w) = Some (tok, s) ->
  VStr (normalizePhone (phone_number c)) = prop s "expected_phone" ->
  truthy (prop s "webhook_url") = true ->
  let w' := fst (run (Server.on_contact chat from c) w) in
  (exists s', map_get tok (Server.sessions w') = Some s'
     /\ s' !! "status" = Some (VStr "verified")
     /\ s' !! "phone" = Some (VStr (phone_number c))
     /\ s' !! "telegram_id" = Some (VNum from)
     /\ s' !! "first_name" = Some (VStr (first_name c))
     /\ s' !! "verified_at" = Some (VNum (Server.clock w))
     /\ forall k, k ∉ ["status"; "phone"; "telegram_id"; "first_name"; "verified_at"] ->
          s' !! k = s !! k)
  /\ webhook_posts (Server.sent w')
     = (webhook_posts (Server.sent w)
        ++ [Server.WebhookPost (prop s "webhook_url")
              (json {[ "event" := VStr "verification_success";
                       "token" := VStr tok;
                       "status" := VStr "verified";
                       "phone" := VStr (phone_number c);
                       "telegram_id" := VNum from;
                       "first_name" := VStr (first_name c);
                       "verified_at" := VNum (Server.clock w);
                       "secret" := prop s "client_secret" ]})])%list.
Proof.
  intros Hnd Hown Hfind Heq Hurl.
  destruct (server_contact_commit w chat from c tok s Hnd Hown Hfind Heq) as (Hs & Hsent & _).
  cbn zeta in *. rewrite Hs, Hsent. split.
  - eexists. split; [apply map_get_set_eq|].
    unfold spread, verified_fields, user_id_val. rewrite Hown.
    repeat split; try (apply lookup_union_Some_l; reflexivity).
    intros k Hk. apply lookup_union_r.
    repeat (apply not_elem_of_cons in Hk as [? Hk]).
    repeat (rewrite lookup_insert_ne by congruence).
    apply lookup_singleton_ne. congruence.
  - rewrite !webhook_posts_app. unfold webhook_of. rewrite Hurl.
    unfold verified_fields, spread, user_id_val. rewrite Hown. reflexivity.
Qed.

Lemma json_lookup_None (o : obj) k : o !! k = None -> json o !! k = None.
Proof. intros H. unfold json. apply map_lookup_filter_None_2. auto. Qed.

Lemma json_lookup (o : obj) k v : o !! k = Some v -> v <> VUndef -> json o !! k = Some v.
Proof. intros H Hv. unfold json. apply map_lookup_filter_Some. auto. Qed.

Lemma patched_other (data : obj) old k :
  data !! k = None -> patched data old !! k = old !! k.
Proof.
  intros H. unfold patched. rewrite lookup_union_r.
  - rewrite map_lookup_filter. destruct (old !! k) as [x|]; [|reflexivity].
    cbn. rewrite option_guard_True by exact H. reflexivity.
  - unfold Worker.toFirestore. rewrite lookup_omap, H. reflexivity.
Qed.

(** C5. On the worker's commit the document gets status, phone,
    telegram_id and first_name, and its verified_at field is left as it
    was (the handler writes none); the webhook body carries no
    verified_at either. The server's commit writes verified_at and
    sends it ([server_commit_record_and_webhook]). *)
Theorem worker_commit_omits_verified_at
    (v : Worker.world) (chat from : Z) (c : contact) (tok : string) (data : obj)
    (d : Worker.fsdoc) :
  worker_active v chat = Some (tok, data) ->
  map_get tok (Worker.docs v) = Some d ->
  user_id c = Some from ->
  VStr (normalizePhone (phone_number c)) = prop data "expected_phone" ->
  truthy (prop data "webhook_url") = true ->
  let v' := fst (run (Worker.handleTelegramWebhook (contact_message chat from c)) v) in
  (exists d', map_get tok (Worker.docs v') = Some d'
     /\ d' !! "status" = Some (Worker.StringValue "verified")
     /\ d' !! "phone" = Some (Worker.StringValue (phone_number c))
     /\ d' !! "telegram_id" = Some (Worker.IntegerValue from)
     /\ d' !! "first_name" = Some (Worker.StringValue (first_name c))
     /\ d' !! "verified_at" = d !! "verified_at")
  /\ exists body,
       webhook_fetches (Worker.sent v')
       = (webhook_fetches (Worker.sent v)
          ++ [Worker.WebhookFetch (prop data "webhook_url") body])%list
       /\ body !! "event" = Some (VStr "verification_success")
       /\ body !! "token" = Some (VStr tok)
       /\ body !! "status" = Some (VStr "verified")
       /\ body !! "verified_at" = None.
Proof.
  intros Hfind Hget Hown Heq Hurl.
  destruct (worker_contact_commit v chat from c tok data Hown Hfind Heq) as (Hs & Hsent).
  cbn zeta in *. rewrite Hs, Hsent, Hget. split.
  - eexists. split; [apply map_get_set_eq|]. cbn [default].
    assert (forall k x, worker_fields c !! k = Some x ->
              forall y, (match x with
                         | VNull => Some Worker.NullValue
                         | VStr s => Some (Worker.StringValue s)
                         | VNum n => Some (Worker.IntegerValue n)
                         | VBool b => Some (Worker.BooleanValue b)
                         | VUndef => None
                         end) = Some y ->
              patched (worker_fields c) d !! k = Some y) as Hset.
    { intros k x Hk y Hy. unfold patched. apply lookup_union_Some_l.
      unfold Worker.toFirestore. rewrite lookup_omap, Hk. exact Hy. }
    repeat split.
    + eapply Hset; reflexivity.
    + eapply Hset; reflexivity.
    + eapply Hset; [reflexivity|]. unfold user_id_val. rewrite Hown. reflexivity.
    + eapply Hset; reflexivity.
    + apply patched_other. reflexivity.
  - unfold worker_webhook_of. rewrite Hurl. eexists.
    rewrite !webhook_fetches_app. split; [reflexivity|].
    unfold spread, worker_fields.
    repeat split.
    + apply json_lookup; [reflexivity|discriminate].
    + apply json_lookup; [reflexivity|discriminate].
    + apply json_lookup; [reflexivity|discriminate].
    + apply json_lookup_None. reflexivity.
Qed.

Lemma worker_commit_witness :
  let v' := Scenario.v_verified in
  (exists d', map_get "tok-A" (Worker.docs v') = Some d'
     /\ d' !! "status" = Some (Worker.StringValue "verified")
     /\ d' !! "verified_at" = None)
  /\ exists body,
       webhook_fetches (Worker.sent v')
       = [Worker.WebhookFetch (VStr "https://app.example/hook") body]
       /\ body !! "verified_at" = None.
Proof.
  pose proof (worker_commit_omits_verified_at Scenario.v_bound 555 42 Scenario.own_card
    "tok-A" (default ∅ (snd <$> worker_active Scenario.v_bound 555))
    (default ∅ (map_get "tok-A" (Worker.docs Scenario.v_bound)))) as H.
  destruct H as [(d' & H1 & H2 & _ & _ & _ & H3) (body & H4 & _ & _ & _ & H5)].
  - vm_compute. reflexivity.
  - vm_compute. reflexivity.
  - reflexivity.
  - vm_compute. reflexivity.
  - vm_compute. reflexivity.
  - cbn zeta. split.
    + exists d'. repeat split; [exact H1|exact H2|]. rewrite H3. vm_compute. reflexivity.
    + exists body. split; [|exact H5]. exact H4.
Defined.

(** ** The [/start] command *)

Lemma spread_singleton (s : obj) k x : spread s {[ k := x ]} = <[ k := x ]> s.
Proof. unfold spread. symmetry. apply insert_union_singleton_l. Qed.

Lemma truthy_nonempty (t : string) : t <> "" -> truthy (VStr t) = true.
Proof.
  intros H. cbn. destruct (String.eqb_spec t ""); [contradiction|reflexivity].
Qed.

Lemma startsWith_nonempty (t p : string) :
  p <> "" -> startsWith t p = true -> t <> "".
Proof. intros Hp H ->. destruct p; [contradiction|discriminate]. Qed.

Section ServerStart.
Import Server.

Lemma server_start_unbound_token (w : world) chat txt token :
  index (split " " txt) 1 = VStr token ->
  token <> "" ->
  map_get token (sessions w) = None ->
  run (on_start chat txt) w = (emit (ChatReply chat InvalidSession) w, tt).
Proof.
  intros Hidx Htok Hget. unfold on_start. rewrite Hidx, truthy_nonempty by exact Htok.
  cbn [negb]. rewrite run_bind, run_await. unfold storage_get. rewrite run_step, Hget.
  reflexivity.
Qed.

Lemma server_start_verified (w : world) chat txt token s :
  index (split " " txt) 1 = VStr token ->
  token <> "" ->
  map_get token (sessions w) = Some s ->
  prop s "status" = VStr "verified" ->
  run (on_start chat txt) w = (emit (ChatReply chat AlreadyVerified) w, tt).
Proof.
  intros Hidx Htok Hget Hst. unfold on_start. rewrite Hidx, truthy_nonempty by exact Htok.
  cbn [negb]. rewrite run_bind, run_await. unfold storage_get. rewrite run_step, Hget.
  rewrite Hst. reflexivity.
Qed.

Lemma server_start_binds (w : world) chat txt token s :
  index (split " " txt) 1 = VStr token ->
  token <> "" ->
  map_get token (sessions w) = Some s ->
  prop s "status" <> VStr "verified" ->
  run (on_start chat txt) w
  = (emit (ChatReply chat SecurityCheckRequired)
       (set_sessions (map_set token (<[ "chat_id" := VNum chat ]> s)) w), tt).
Proof.
  intros Hidx Htok Hget Hst. unfold on_start. rewrite Hidx, truthy_nonempty by exact Htok.
  cbn [negb]. rewrite run_bind, run_await. unfold storage_get. rewrite run_step, Hget.
  unfold strict_eq. rewrite bool_decide_eq_false_2 by exact Hst.
  rewrite run_bind, run_await. unfold storage_update. rewrite run_step, Hget.
  rewrite run_await. unfold ctx_reply. rewrite run_step, spread_singleton. reflexivity.
Qed.
End ServerStart.

Section WorkerStart.
Import Worker.

Lemma run_text_message (v : world) chat from txt :
  run (handleTelegramWebhook (text_message chat from txt)) v
  = (fst (run (handleStart (Message chat from (Some txt) None)) v), ok_resp).
Proof.
  unfold handleTelegramWebhook, text_message. cbn [upd_message].
  rewrite run_bind. destruct (run (handleStart _) v) as [v' []]. reflexivity.
Qed.

Lemma worker_start_binds (v : world) chat from txt token d :
  startsWith txt "/start " = true ->
  index (split " " txt) 1 = VStr token ->
  token <> "" ->
  map_get token (docs v) = Some d ->
  d <> ∅ ->
  prop (omap decode_field d) "status" = VStr "pending" ->
  run (handleTelegramWebhook (text_message chat from txt)) v
  = (emit (TelegramMessage chat SecurityCheck)
       (set_docs (map_set token (patched {[ "chat_id" := VNum chat ]} d)) v), ok_resp).
Proof.
  intros Hsw Hidx Htok Hget Hne Hst. rewrite run_text_message. f_equal.
  unfold handleStart. cbn [text chat_id].
  rewrite (truthy_nonempty txt), Hsw, Hidx, (truthy_nonempty token); try assumption.
  2:{ eapply startsWith_nonempty; [|exact Hsw]. discriminate. }
  cbn [andb]. rewrite run_bind. unfold getDoc. rewrite run_remote, Hget.
  unfold fromFirestore. rewrite bool_decide_eq_false_2 by exact Hne. rewrite Hst.
  unfold strict_eq. rewrite bool_decide_eq_true_2 by reflexivity.
  rewrite run_bind. unfold updateDoc. rewrite run_remote, Hget.
  unfold sendTelegramMessage. rewrite run_remote. reflexivity.
Qed.

Lemma worker_start_not_pending (v : world) chat from txt token d :
  startsWith txt "/start " = true ->
  index (split " " txt) 1 = VStr token ->
  token <> "" ->
  map_get token (docs v) = Some d ->
  prop (omap decode_field d) "status" <> VStr "pending" ->
  run (handleTelegramWebhook (text_message chat from txt)) v
  = (emit (TelegramMessage chat InvalidOrExpired) v, ok_resp).
Proof.
  intros Hsw Hidx Htok Hget Hst. rewrite run_text_message. f_equal.
  unfold handleStart. cbn [text chat_id].
  rewrite (truthy_nonempty txt), Hsw, Hidx, (truthy_nonempty token); try assumption.
  2:{ eapply startsWith_nonempty; [|exact Hsw]. discriminate. }
  cbn [andb]. rewrite run_bind. unfold getDoc. rewrite run_remote, Hget.
  unfold fromFirestore. destruct (bool_decide (d = ∅)).
  - unfold sendTelegramMessage. rewrite run_remote. reflexivity.
  - unfold strict_eq. rewrite bool_decide_eq_false_2 by exact Hst.
    unfold sendTelegramMessage. rewrite run_remote. reflexivity.
Qed.
End WorkerStart.

(** C3, as the code has it. A [/start <token>] received while the
    session is pending sets chat_id to the chat it came from, whatever
    chat_id held before (the last /start wins) and leaves the other
    fields alone; on a verified session it changes nothing, and in the
    worker it changes nothing on any session that is not pending. *)
Theorem start_binds_the_sending_chat
    (w : Server.world) (chat : Z) (txt token : string) (s : obj)
    (v : Worker.world) (chat' from' : Z) (txt' token' : string) (d : Worker.fsdoc) :
  index (split " " txt) 1 = VStr token ->
  token <> "" ->
  map_get token (Server.sessions w) = Some s ->
  startsWith txt' "/start " = true ->
  index (split " " txt') 1 = VStr token' ->
  token' <> "" ->
  map_get token' (Worker.docs v) = Some d ->
  (let w' := fst (run (Server.on_start chat txt) w) in
   (prop s "status" = VStr "pending" ->
      Server.sessions w' = map_set token (<[ "chat_id" := VNum chat ]> s) (Server.sessions w))
   /\ (prop s "status" = VStr "verified" -> Server.sessions w' = Server.sessions w))
  /\
  (let v' := fst (run (Worker.handleTelegramWebhook (text_message chat' from' txt')) v) in
   (prop (omap Worker.decode_field d) "status" = VStr "pending" ->
      exists d', Worker.docs v' = map_set token' d' (Worker.docs v)
        /\ d' !! "chat_id" = Some (Worker.IntegerValue chat')
        /\ forall k, k <> "chat_id" -> d' !! k = d !! k)
   /\ (prop (omap Worker.decode_field d) "status" <> VStr "pending" ->
         Worker.docs v' = Worker.docs v)).
Proof.
  intros Hidx Htok Hget Hsw Hidx' Htok' Hget'. split; cbn zeta; split.
  - intros Hst. rewrite (server_start_binds w chat txt token s); auto.
    rewrite Hst. discriminate.
  - intros Hst. rewrite (server_start_verified w chat txt token s); auto.
  - intros Hst. rewrite (worker_start_binds v chat' from' txt' token' d); auto.
    + eexists. split; [reflexivity|]. split.
      * unfold patched. apply lookup_union_Some_l.
        unfold Worker.toFirestore. rewrite lookup_omap. reflexivity.
      * intros k Hk. apply patched_other. apply lookup_singleton_ne. congruence.
    + intros ->. rewrite omap_empty in Hst. discriminate.
  - intros Hst. rewrite (worker_start_not_pending v chat' from' txt' token' d); auto.
Qed.

Lemma start_binds_witness :
  prop (default ∅ (map_get "tok-A"
          (Server.sessions (fst (run (Server.on_start 777 "/start tok-A") Scenario.s_bound)))))
       "chat_id" = VNum 777
  /\ Server.sessions (fst (run (Server.on_start 777 "/start tok-A") Scenario.s_verified))
     = Server.sessions Scenario.s_verified.
Proof.
  pose proof (start_binds_the_sending_chat
    Scenario.s_bound 777 "/start tok-A" "tok-A"
    (default ∅ (map_get "tok-A" (Server.sessions Scenario.s_bound)))
    Scenario.v_bound 777 42 "/start tok-A" "tok-A"
    (default ∅ (map_get "tok-A" (Worker.docs Scenario.v_bound)))) as H.
  destruct H as [[H1 _] _]; try (vm_compute; (reflexivity || discriminate)).
  cbn zeta in H1. rewrite H1 by reflexivity. split.
  - rewrite map_get_set_eq. reflexivity.
  - vm_compute. reflexivity.
Defined.

(** C3 as stated fails: a session bound to chat 555 and still pending
    is bound to chat 777 by a second /start from that chat, in the
    server and in the worker. *)
Lemma start_rebinds_counterexample :
  (let before := default ∅ (map_get "tok-A" (Server.sessions Scenario.s_bound)) in
   let after := default ∅ (map_get "tok-A"
     (Server.sessions (fst (run (Server.on_start 777 "/start tok-A") Scenario.s_bound)))) in
   prop before "status" = VStr "pending"
   /\ prop before "chat_id" = VNum 555
   /\ prop after "chat_id" = VNum 777)
  /\
  (let before := default ∅ (map_get "tok-A" (Worker.docs Scenario.v_bound)) in
   let after := default ∅ (map_get "tok-A"
     (Worker.docs (fst (run (Worker.handleTelegramWebhook (text_message 777 43 "/start tok-A"))
                            Scenario.v_bound)))) in
   before !! "status" = Some (Worker.StringValue "pending")
   /\ before !! "chat_id" = Some (Worker.IntegerValue 555)
   /\ after !! "chat_id" = Some (Worker.IntegerValue 777)).
Proof. vm_compute. repeat split. Qed.

(** ** Creating a session *)

Section CreateFacts.

Lemma server_create_runs (w : Server.world) token data :
  run (Server.storage_create token data) w
  = (Server.add_timer (Server.clock w + 600000, token)
       (Server.set_sessions (map_set token data) w), token).
Proof. reflexivity. Qed.

Lemma server_createSession_runs (w : Server.world) phone webhook_url client_secret :
  let token := Server.uuid_source w (Server.uuid_drawn w) in
  let data : obj :=
    {[ "status" := VStr "pending";
       "expected_phone" := VStr (normalizePhone phone);
       "webhook_url" := or_else webhook_url VNull;
       "client_secret" := or_else client_secret VNull;
       "created_at" := VNum (Server.clock w);
       "expires_at" := VNum (Server.clock w + 600000) ]} in
  run (Server.createSession phone webhook_url client_secret) w
  = (Server.World (map_set token data (Server.sessions w))
       (Server.timers w ++ [(Server.clock w + 600000, token)])
       (Server.sent w) (Server.clock w) (Server.uuid_source w) (S (Server.uuid_drawn w)),
     (token, data)).
Proof. reflexivity. Qed.

Lemma worker_createDoc_runs (v : Worker.world) id data :
  run (Worker.createDoc id data) v
  = (Worker.set_docs (map_set id (Worker.toFirestore data)) v, tt).
Proof. reflexivity. Qed.

Lemma worker_handleInit_runs toISOString URL_protocol e (v : Worker.world) (body : obj) phone :
  prop body "phone" = VStr phone ->
  validatePhoneNumber (VStr phone) = true ->
  truthy (prop body "webhook_url") && negb (Worker.validateWebhookUrl URL_protocol (prop body "webhook_url")) = false ->
  let token := Worker.uuid_source v (Worker.uuid_drawn v) in
  let data : obj :=
    {[ "status" := VStr "pending";
       "expected_phone" := VStr (normalizePhone phone);
       "webhook_url" := or_else (prop body "webhook_url") VNull;
       "client_secret" := or_else (prop body "client_secret") VNull;
       "created_at" := VStr (toISOString (Worker.clock v));
       "expires_at" := VStr (toISOString (Worker.clock v + Worker.session_age e * 1000)) ]} in
  run (Worker.handleInit toISOString URL_protocol e body) v
  = (Worker.World (map_set token (Worker.toFirestore data) (Worker.docs v))
       (Worker.sent v) (Worker.clock v) (Worker.uuid_source v) (S (Worker.uuid_drawn v)),
     Worker.jsonResp
       {[ "token" := VStr token;
          "bot_link" := VStr ("https://t.me/" +:+ Worker.BOT_USERNAME e +:+ "?start=" +:+ token);
          "expires_in" := VNum (Worker.session_age e) ]} 200).
Proof.
  intros Hp Hv Hw. unfold Worker.handleInit. rewrite Hp, Hv, Hw.
  assert (truthy (VStr phone) = true) as ->.
  { unfold validatePhoneNumber in Hv. destruct (truthy (VStr phone)); [reflexivity|discriminate]. }
  reflexivity.
Qed.

End CreateFacts.

(** C6, as the code has it. create stores the session under the token
    and reports the token whether or not the token was taken: a record
    already there is replaced, no other record changes, no Conflict is
    raised. createSession draws one token and stores under it, without
    a retry. The worker's createDoc is the same upsert. *)
Theorem create_replaces_without_conflict :
  (forall (w : Server.world) token data,
     let '(w', r) := run (Server.storage_create token data) w in
     r = token
     /\ map_get token (Server.sessions w') = Some data
     /\ forall k, k <> token -> map_get k (Server.sessions w') = map_get k (Server.sessions w))
  /\ (forall (w : Server.world) phone webhook_url client_secret,
        let '(w', (token, data)) := run (Server.createSession phone webhook_url client_secret) w in
        token = Server.uuid_source w (Server.uuid_drawn w)
        /\ Server.uuid_drawn w' = S (Server.uuid_drawn w)
        /\ map_get token (Server.sessions w') = Some data
        /\ prop data "status" = VStr "pending")
  /\ (forall (v : Worker.world) id data,
        let '(v', _) := run (Worker.createDoc id data) v in
        map_get id (Worker.docs v') = Some (Worker.toFirestore data)
        /\ forall k, k <> id -> map_get k (Worker.docs v') = map_get k (Worker.docs v))
  /\ (forall toISOString URL_protocol e (v : Worker.world) (body : obj) phone,
        prop body "phone" = VStr phone ->
        validatePhoneNumber (VStr phone) = true ->
        truthy (prop body "webhook_url")
          && negb (Worker.validateWebhookUrl URL_protocol (prop body "webhook_url")) = false ->
        let '(v', Json status answer) := run (Worker.handleInit toISOString URL_protocol e body) v in
        let token := Worker.uuid_source v (Worker.uuid_drawn v) in
        status = 200
        /\ answer !! "token" = Some (VStr token)
        /\ Worker.uuid_drawn v' = S (Worker.uuid_drawn v)
        /\ exists d, map_get token (Worker.docs v') = Some d
             /\ d !! "status" = Some (Worker.StringValue "pending")
             /\ d !! "chat_id" = None).
Proof.
  split; [|split; [|split]]; cycle 3.
  { intros iso proto e v body phone Hp Hv Hw.
    pose proof (worker_handleInit_runs iso proto e v body phone Hp Hv Hw) as H.
    cbn zeta in H. rewrite H. unfold Worker.jsonResp. cbn zeta.
    split; [reflexivity|]. split; [apply json_lookup; [reflexivity|discriminate]|].
    split; [reflexivity|]. eexists. split; [apply map_get_set_eq|].
    unfold Worker.toFirestore. rewrite !lookup_omap. split; reflexivity. }
  - intros w token data. rewrite server_create_runs. cbn.
    split; [reflexivity|]. split; [apply map_get_set_eq|].
    intros k Hk. apply map_get_set_ne. congruence.
  - intros w phone wh cs. pose proof (server_createSession_runs w phone wh cs) as H.
    cbn zeta in H. rewrite H. cbn.
    split; [reflexivity|]. split; [reflexivity|]. split; [apply map_get_set_eq|reflexivity].
  - intros v id data. rewrite worker_createDoc_runs. cbn.
    split; [apply map_get_set_eq|]. intros k Hk. apply map_get_set_ne. congruence.
Qed.

(** C6 as stated fails: create on a token that is taken succeeds and
    the record that was there is gone; and a second createSession that
    draws the token of the first replaces its session. *)
Lemma create_overwrites_counterexample :
  (let taken := map_get "tok-A" (Server.sessions Scenario.s_bound) in
   let data : obj := {[ "status" := VStr "pending"; "expected_phone" := VStr "251922000000" ]} in
   let '(w', r) := run (Server.storage_create "tok-A" data) Scenario.s_bound in
   is_Some taken
   /\ taken <> Some data
   /\ r = "tok-A"
   /\ map_get "tok-A" (Server.sessions w') = Some data)
  /\
  (let w := Server.World (Server.sessions Scenario.s_bound) [] [] 2000 (fun _ => "tok-A") 0 in
   let '(w', (token, data)) := run (Server.createSession "0922000000" VUndef VUndef) w in
   token = "tok-A"
   /\ Server.uuid_drawn w' = 1%nat
   /\ prop (default ∅ (map_get "tok-A" (Server.sessions w))) "chat_id" = VNum 555
   /\ map_get "tok-A" (Server.sessions w') = Some data
   /\ prop data "chat_id" = VUndef
   /\ prop data "expected_phone" = VStr "251922000000")
  /\
  (let taken := map_get "tok-A" (Worker.docs Scenario.v_bound) in
   let data : obj := {[ "status" := VStr "pending"; "expected_phone" := VStr "251922000000" ]} in
   let '(v', _) := run (Worker.createDoc "tok-A" data) Scenario.v_bound in
   is_Some taken
   /\ taken <> Some (Worker.toFirestore data)
   /\ map_get "tok-A" (Worker.docs v') = Some (Worker.toFirestore data)).
Proof.
  split; [|split].
  - cbv zeta. rewrite server_create_runs. split; [|split; [|split]].
    + vm_compute. eexists. reflexivity.
    + intros H. apply (f_equal (fun o => prop (default ∅ o) "chat_id")) in H.
      vm_compute in H. discriminate.
    + reflexivity.
    + apply map_get_set_eq.
  - vm_compute. repeat split.
  - cbv zeta. rewrite worker_createDoc_runs. split; [|split].
    + vm_compute. eexists. reflexivity.
    + intros H. apply (f_equal (fun o => default ∅ o !! "chat_id")) in H.
      vm_compute in H. discriminate.
    + apply map_get_set_eq.
Qed.

Lemma create_replaces_witness :
  let '(v', Json status answer) :=
    run (Worker.handleInit Scenario.iso Scenario.protocol Scenario.bindings
           {[ "phone" := VStr "0911234567" ]}) Scenario.v_bound in
  status = 200
  /\ answer !! "token" = Some (VStr "tok-B")
  /\ exists d, map_get "tok-B" (Worker.docs v') = Some d
       /\ d !! "status" = Some (Worker.StringValue "pending").
Proof.
  destruct create_replaces_without_conflict as (_ & _ & _ & H).
  specialize (H Scenario.iso Scenario.protocol Scenario.bindings Scenario.v_bound
                {[ "phone" := VStr "0911234567" ]} "0911234567"
                eq_refl eq_refl eq_refl).
  destruct (run _ Scenario.v_bound) as [v' [status answer]].
  destruct H as (H1 & H2 & _ & d & H3 & H4 & _).
  split; [exact H1|]. split; [exact H2|]. exists d. split; [exact H3|exact H4].
Defined.

(** ** Reading a session *)

Lemma server_getSession_runs (w : Server.world) token :
  run (Server.getSession token) w
  = match map_get token (Server.sessions w) with
    | None => (w, None)
    | Some s =>
        if truthy (prop s "expires_at") && num_gt (Server.clock w) (prop s "expires_at")
        then (Server.set_sessions (map_set token (<[ "status" := VStr "expired" ]> s)) w,
              Some (<[ "status" := VStr "expired" ]> s))
        else (w, Some s)
    end.
Proof.
  unfold Server.getSession. rewrite run_bind, run_await.
  unfold Server.storage_get. rewrite run_step.
  destruct (map_get token (Server.sessions w)) as [s|] eqn:Hget; [|reflexivity].
  rewrite run_bind. unfold Server.Date_now. rewrite run_step.
  destruct (truthy (prop s "expires_at") && num_gt (Server.clock w) (prop s "expires_at"));
    [|reflexivity].
  rewrite run_bind, run_await. unfold Server.storage_update. rewrite run_step, Hget.
  rewrite spread_singleton. reflexivity.
Qed.

Lemma server_check_runs (w : Server.world) token :
  run (Server.check token) w
  = let (w', session) := run (Server.getSession token) w in
    (w', match session with
         | None => Json 404 {[ "error" := VStr "Token not found" ]}
         | Some session => Json 200 (json (delete "client_secret" session))
         end).
Proof.
  unfold Server.check. rewrite run_bind, run_await.
  destruct (run (Server.getSession token) w) as [w' [s|]]; reflexivity.
Qed.

Lemma worker_handleCheck_runs Date_parse (v : Worker.world) token :
  run (Worker.handleCheck Date_parse token) v
  = match map_get token (Worker.docs v) ≫= Worker.fromFirestore with
    | None => (v, Worker.jsonResp {[ "error" := VStr "Token not found" ]} 404)
    | Some doc =>
        if truthy (prop doc "expires_at")
           && Worker.date_before_now Date_parse (prop doc "expires_at") (Worker.clock v)
        then (Worker.set_docs
                (map_set token
                   (patched {[ "status" := VStr "expired" ]}
                            (default ∅ (map_get token (Worker.docs v))))) v,
              Worker.jsonResp (delete "client_secret" (<[ "status" := VStr "expired" ]> doc)) 200)
        else (v, Worker.jsonResp (delete "client_secret" doc) 200)
    end.
Proof.
  unfold Worker.handleCheck. rewrite run_bind. unfold Worker.getDoc. rewrite run_remote.
  destruct (map_get token (Worker.docs v)) as [d|] eqn:Hget; [|reflexivity].
  cbn [mbind option_bind]. destruct (Worker.fromFirestore d) as [doc|]; [|reflexivity].
  rewrite run_bind. unfold Worker.Date_now. rewrite run_step.
  destruct (truthy (prop doc "expires_at") && _); [|reflexivity].
  rewrite run_bind. unfold Worker.updateDoc. rewrite run_remote, Hget. reflexivity.
Qed.

(** ** The secret never comes back *)

Lemma map_get_hide_secrets {A} (m : list (string * gmap string A)) k :
  map_get k (hide_secrets m) = delete "client_secret" <$> map_get k m.
Proof.
  induction m as [|[t o] r IH]; cbn; [reflexivity|].
  destruct (String.eqb k t); [reflexivity|exact IH].
Qed.

Lemma prop_delete_ne (o : obj) k k' : k <> k' -> prop (delete k o) k' = prop o k'.
Proof. intros H. unfold prop. rewrite lookup_delete_ne by exact H. reflexivity. Qed.

Lemma json_no_secret (o : obj) : json (delete "client_secret" o) !! "client_secret" = None.
Proof. apply json_lookup_None, lookup_delete_eq. Qed.

Lemma server_check_no_secret (w : Server.world) token :
  match snd (run (Server.check token) w) with
  | Json _ body => body !! "client_secret" = None
  end.
Proof.
  rewrite server_check_runs. destruct (run (Server.getSession token) w) as [w' [s|]]; cbn.
  - apply json_no_secret.
  - reflexivity.
Qed.

Lemma server_check_secret_blind (w1 w2 : Server.world) token :
  hide_secrets (Server.sessions w1) = hide_secrets (Server.sessions w2) ->
  Server.clock w1 = Server.clock w2 ->
  snd (run (Server.check token) w1) = snd (run (Server.check token) w2).
Proof.
  intros Hs Hc. rewrite !server_check_runs, !server_getSession_runs.
  pose proof (map_get_hide_secrets (Server.sessions w1) token) as H1.
  pose proof (map_get_hide_secrets (Server.sessions w2) token) as H2.
  rewrite Hs, H2 in H1. rewrite Hc.
  destruct (map_get token (Server.sessions w1)) as [s1|],
           (map_get token (Server.sessions w2)) as [s2|]; cbn in H1; try discriminate;
    [|reflexivity].
  injection H1 as H1.
  rewrite <- (prop_delete_ne s1 "client_secret" "expires_at") by discriminate.
  rewrite <- (prop_delete_ne s2 "client_secret" "expires_at") by discriminate.
  rewrite H1.
  destruct (truthy _ && _); cbn.
  - rewrite !delete_insert_ne by discriminate. rewrite H1. reflexivity.
  - rewrite H1. reflexivity.
Qed.

Lemma worker_check_no_secret Date_parse (v : Worker.world) token :
  match snd (run (Worker.handleCheck Date_parse token) v) with
  | Json _ body => body !! "client_secret" = None
  end.
Proof.
  rewrite worker_handleCheck_runs.
  destruct (map_get token (Worker.docs v) ≫= Worker.fromFirestore) as [doc|]; cbn.
  - destruct (truthy _ && _); cbn; apply json_no_secret.
  - reflexivity.
Qed.

Lemma worker_check_secret_blind Date_parse (v1 v2 : Worker.world) token :
  hide_secrets (Worker.docs v1) = hide_secrets (Worker.docs v2) ->
  Worker.clock v1 = Worker.clock v2 ->
  (forall d, map_get token (Worker.docs v1) = Some d -> is_Some (d !! "status")) ->
  snd (run (Worker.handleCheck Date_parse token) v1)
  = snd (run (Worker.handleCheck Date_parse token) v2).
Proof.
  intros Hs Hc Hwf. rewrite !worker_handleCheck_runs.
  pose proof (map_get_hide_secrets (Worker.docs v1) token) as H1.
  pose proof (map_get_hide_secrets (Worker.docs v2) token) as H2.
  rewrite Hs, H2 in H1. rewrite Hc.
  destruct (map_get token (Worker.docs v1)) as [d1|],
           (map_get token (Worker.docs v2)) as [d2|]; cbn in H1; try discriminate;
    [|reflexivity].
  injection H1 as H1. cbn [mbind option_bind].
  destruct (Hwf d1 eq_refl) as [x Hx].
  assert (d2 !! "status" = Some x) as Hx2.
  { rewrite <- (lookup_delete_ne d2 "client_secret" "status") by discriminate.
    rewrite H1. rewrite lookup_delete_ne by discriminate. exact Hx. }
  unfold Worker.fromFirestore.
  rewrite !bool_decide_eq_false_2.
  2:{ intros ->. rewrite lookup_empty in Hx2. discriminate. }
  2:{ intros ->. rewrite lookup_empty in Hx. discriminate. }
  assert (delete "client_secret" (omap Worker.decode_field d1)
          = delete "client_secret" (omap Worker.decode_field d2)) as Hd.
  { rewrite <- !omap_delete. rewrite H1. reflexivity. }
  rewrite <- (prop_delete_ne (omap Worker.decode_field d1) "client_secret" "expires_at")
    by discriminate.
  rewrite <- (prop_delete_ne (omap Worker.decode_field d2) "client_secret" "expires_at")
    by discriminate.
  rewrite !delete_insert_ne by discriminate.
  revert Hd. generalize (delete "client_secret" (omap Worker.decode_field d1)).
  intros o ->. destruct (truthy _ && _); reflexivity.
Qed.

(** C7. The answer of the status check has no client_secret field, and
    it is the same for two stores that differ only in client_secret:
    nothing of the secret reaches the caller. Server (GET
    /check/:token) and worker (handleCheck). *)
Theorem check_never_returns_the_secret
    (w1 w2 : Server.world) (token : string)
    (Date_parse : string -> option Z) (v1 v2 : Worker.world) (token' : string) :
  hide_secrets (Server.sessions w1) = hide_secrets (Server.sessions w2) ->
  Server.clock w1 = Server.clock w2 ->
  hide_secrets (Worker.docs v1) = hide_secrets (Worker.docs v2) ->
  Worker.clock v1 = Worker.clock v2 ->
  (forall d, map_get token' (Worker.docs v1) = Some d -> is_Some (d !! "status")) ->
  (match snd (run (Server.check token) w1) with
   | Json _ body => body !! "client_secret" = None
   end
   /\ snd (run (Server.check token) w1) = snd (run (Server.check token) w2))
  /\
  (match snd (run (Worker.handleCheck Date_parse token') v1) with
   | Json _ body => body !! "client_secret" = None
   end
   /\ snd (run (Worker.handleCheck Date_parse token') v1)
      = snd (run (Worker.handleCheck Date_parse token') v2)).
Proof.
  intros Hs Hc Hs' Hc' Hwf. repeat split.
  - apply server_check_no_secret.
  - apply server_check_secret_blind; assumption.
  - apply worker_check_no_secret.
  - apply worker_check_secret_blind; assumption.
Qed.

Lemma check_secret_witness :
  prop (default ∅ (map_get "tok-A" (Server.sessions Scenario.s_verified))) "client_secret"
    = VStr "s3cret"
  /\ prop (default ∅ (map_get "tok-A" (Server.sessions Scenario.s_verified'))) "client_secret"
    = VStr "hunter2"
  /\ snd (run (Server.check "tok-A") Scenario.s_verified)
     = snd (run (Server.check "tok-A") Scenario.s_verified')
  /\ snd (run (Worker.handleCheck Scenario.parse "tok-A") Scenario.v_verified)
     = snd (run (Worker.handleCheck Scenario.parse "tok-A") Scenario.v_verified').
Proof.
  pose proof (check_never_returns_the_secret
    Scenario.s_verified Scenario.s_verified' "tok-A"
    Scenario.parse Scenario.v_verified Scenario.v_verified' "tok-A") as H.
  destruct H as [[_ H1] [_ H2]].
  - vm_compute. reflexivity.
  - reflexivity.
  - vm_compute. reflexivity.
  - reflexivity.
  - intros d Hd. vm_compute in Hd. injection Hd as <-. vm_compute. eexists. reflexivity.
  - split; [|split; [|split]];
      [vm_compute; reflexivity|vm_compute; reflexivity|exact H1|exact H2].
Defined.

(** ** Lazy expiry *)

Lemma insert_status_prop (s : obj) x : prop (<[ "status" := x ]> s) "status" = x.
Proof. unfold prop. rewrite lookup_insert_eq. reflexivity. Qed.

Lemma server_getSession_unexpired (w : Server.world) token s e :
  map_get token (Server.sessions w) = Some s ->
  prop s "expires_at" = VNum e ->
  Server.clock w <= e ->
  run (Server.getSession token) w = (w, Some s).
Proof.
  intros Hget He Hle. rewrite server_getSession_runs, Hget, He.
  unfold num_gt. cbn [to_number].
  destruct (e <? Server.clock w) eqn:E; [lia|]. rewrite andb_false_r. reflexivity.
Qed.

Lemma server_getSession_expired (w : Server.world) token s e :
  map_get token (Server.sessions w) = Some s ->
  prop s "expires_at" = VNum e ->
  e <> 0 ->
  e < Server.clock w ->
  run (Server.getSession token) w
  = (Server.set_sessions (map_set token (<[ "status" := VStr "expired" ]> s)) w,
     Some (<[ "status" := VStr "expired" ]> s)).
Proof.
  intros Hget He Hnz Hlt. rewrite server_getSession_runs, Hget, He.
  unfold num_gt. cbn [to_number truthy].
  destruct (e <? Server.clock w) eqn:E; [|lia].
  destruct (e =? 0) eqn:E0; [lia|]. reflexivity.
Qed.

Lemma prop_decoded_string (d : Worker.fsdoc) k str :
  d !! k = Some (Worker.StringValue str) ->
  prop (omap Worker.decode_field d) k = if String.eqb str "" then VUndef else VStr str.
Proof.
  intros H. unfold prop. rewrite lookup_omap, H. cbn.
  destruct (String.eqb str ""); reflexivity.
Qed.

Lemma worker_handleCheck_unexpired Date_parse (v : Worker.world) token d iso e :
  map_get token (Worker.docs v) = Some d ->
  d !! "expires_at" = Some (Worker.StringValue iso) ->
  Date_parse iso = Some e ->
  Worker.clock v <= e ->
  run (Worker.handleCheck Date_parse token) v
  = (v, Worker.jsonResp (delete "client_secret" (omap Worker.decode_field d)) 200).
Proof.
  intros Hget Hexp Hp Hle. rewrite worker_handleCheck_runs, Hget. cbn [mbind option_bind].
  unfold Worker.fromFirestore. rewrite bool_decide_eq_false_2.
  2:{ intros ->. rewrite lookup_empty in Hexp. discriminate. }
  rewrite (prop_decoded_string d "expires_at" iso Hexp).
  destruct (String.eqb iso "") eqn:Eiso; [reflexivity|].
  cbn [truthy]. rewrite Eiso. cbn [negb andb].
  unfold Worker.date_before_now. cbn [Worker.Date_of]. rewrite Hp.
  destruct (e <? Worker.clock v) eqn:E; [lia|]. reflexivity.
Qed.

Lemma worker_handleCheck_expired Date_parse (v : Worker.world) token d iso e :
  map_get token (Worker.docs v) = Some d ->
  d !! "expires_at" = Some (Worker.StringValue iso) ->
  iso <> "" ->
  Date_parse iso = Some e ->
  e < Worker.clock v ->
  run (Worker.handleCheck Date_parse token) v
  = (Worker.set_docs (map_set token (patched {[ "status" := VStr "expired" ]} d)) v,
     Worker.jsonResp
       (delete "client_secret" (<[ "status" := VStr "expired" ]> (omap Worker.decode_field d)))
       200).
Proof.
  intros Hget Hexp Hne Hp Hlt. rewrite worker_handleCheck_runs, Hget. cbn [mbind option_bind].
  unfold Worker.fromFirestore. rewrite bool_decide_eq_false_2.
  2:{ intros ->. rewrite lookup_empty in Hexp. discriminate. }
  rewrite (prop_decoded_string d "expires_at" iso Hexp).
  destruct (String.eqb_spec iso ""); [contradiction|].
  rewrite truthy_nonempty by assumption. cbn [andb].
  unfold Worker.date_before_now. cbn [Worker.Date_of]. rewrite Hp.
  destruct (e <? Worker.clock v) eqn:E; [|lia]. reflexivity.
Qed.

Lemma patched_expired_status (d : Worker.fsdoc) :
  patched {[ "status" := VStr "expired" ]} d !! "status" = Some (Worker.StringValue "expired").
Proof.
  unfold patched. apply lookup_union_Some_l.
  unfold Worker.toFirestore. rewrite lookup_omap. reflexivity.
Qed.

(** The timer that create() sets removes a session only while it is
    pending: a verified session outlives its expires_at in the map. *)
Lemma expire_callback_spares_verified (w : Server.world) token s :
  map_get token (Server.sessions w) = Some s ->
  prop s "status" <> VStr "pending" ->
  run (Server.expire_callback token) w = (w, tt).
Proof.
  intros Hget Hst. unfold Server.expire_callback. rewrite run_step, Hget.
  unfold strict_eq. rewrite bool_decide_eq_false_2 by exact Hst. reflexivity.
Qed.

(** C1. What a read does with expiry. Up to expires_at the session is
    returned as stored and the store is not written. Past expires_at
    the returned session has status expired and the store holds that
    status before the read returns; the stored status is not looked at,
    so a verified session past expires_at is returned, and stored, as
    expired too. Server getSession and worker handleCheck. *)
Theorem lazy_expiry_ignores_the_stored_status
    (w : Server.world) (token : string) (s : obj) (e : Z)
    (Date_parse : string -> option Z) (v : Worker.world) (token' : string)
    (d : Worker.fsdoc) (iso : string) (e' : Z) :
  map_get token (Server.sessions w) = Some s ->
  prop s "expires_at" = VNum e ->
  e <> 0 ->
  map_get token' (Worker.docs v) = Some d ->
  d !! "expires_at" = Some (Worker.StringValue iso) ->
  iso <> "" ->
  Date_parse iso = Some e' ->
  ((Server.clock w <= e -> run (Server.getSession token) w = (w, Some s))
   /\ (e < Server.clock w ->
       let '(w', r) := run (Server.getSession token) w in
       (exists s', r = Some s' /\ prop s' "status" = VStr "expired"
                   /\ forall k, k <> "status" -> s' !! k = s !! k)
       /\ (exists s', map_get token (Server.sessions w') = Some s'
                      /\ prop s' "status" = VStr "expired")))
  /\
  ((Worker.clock v <= e' ->
      run (Worker.handleCheck Date_parse token') v
      = (v, Worker.jsonResp (delete "client_secret" (omap Worker.decode_field d)) 200))
   /\ (e' < Worker.clock v ->
       let '(v', Json status body) := run (Worker.handleCheck Date_parse token') v in
       status = 200
       /\ body !! "status" = Some (VStr "expired")
       /\ exists d', map_get token' (Worker.docs v') = Some d'
                     /\ d' !! "status" = Some (Worker.StringValue "expired"))).
Proof.
  intros Hget He Hnz Hget' Hexp Hiso Hp. split; split.
  - intros Hle. eapply server_getSession_unexpired; eauto.
  - intros Hlt. rewrite (server_getSession_expired w token s e) by assumption. split.
    + eexists. split; [reflexivity|]. split; [apply insert_status_prop|].
      intros k Hk. apply lookup_insert_ne. congruence.
    + eexists. split; [apply map_get_set_eq|apply insert_status_prop].
  - intros Hle. eapply worker_handleCheck_unexpired; eauto.
  - intros Hlt. rewrite (worker_handleCheck_expired Date_parse v token' d iso e') by assumption.
    unfold Worker.jsonResp. split; [reflexivity|]. split.
    + apply json_lookup; [|discriminate].
      rewrite lookup_delete_ne by discriminate. apply lookup_insert_eq.
    + eexists. split; [apply map_get_set_eq|apply patched_expired_status].
Qed.

(** The session of the scenario, verified at time 1000, read at time
    700000 (its expires_at is 601000): the check answers expired and
    the stored status is expired from then on. *)
Lemma lazy_expiry_witness :
  prop (default ∅ (map_get "tok-A" (Server.sessions Scenario.s_verified))) "status"
    = VStr "verified"
  /\ let '(w', r) := run (Server.getSession "tok-A") (Server.at_time 700000 Scenario.s_verified) in
     (exists s', r = Some s' /\ prop s' "status" = VStr "expired")
     /\ (exists s', map_get "tok-A" (Server.sessions w') = Some s'
                    /\ prop s' "status" = VStr "expired").
Proof.
  pose proof (lazy_expiry_ignores_the_stored_status
    (Server.at_time 700000 Scenario.s_verified) "tok-A"
    (default ∅ (map_get "tok-A" (Server.sessions Scenario.s_verified))) 601000
    Scenario.parse (Worker.at_time 3700000 Scenario.v_verified) "tok-A"
    (default ∅ (map_get "tok-A" (Worker.docs Scenario.v_verified)))
    "2025-12-05T09:50:23.000Z" 3601000) as H.
  destruct H as [[_ H] _]; try (vm_compute; (reflexivity || discriminate)).
  split; [vm_compute; reflexivity|].
  specialize (H ltac:(vm_compute; reflexivity)).
  destruct (run (Server.getSession "tok-A") (Server.at_time 700000 Scenario.s_verified)) as [w' r].
  destruct H as [(s' & Hr & Hs & _) H2]. split; [|exact H2]. exists s'. auto.
Defined.

(** ** Two deliveries in flight *)

Section WorkerRace.
Import Worker.

Lemma worker_race_runs (v : world) chat from1 c1 from2 c2 tok data :
  worker_active v chat = Some (tok, data) ->
  user_id c1 = Some from1 ->
  user_id c2 = Some from2 ->
  VStr (normalizePhone (phone_number c1)) = prop data "expected_phone" ->
  VStr (normalizePhone (phone_number c2)) = prop data "expected_phone" ->
  let '(v', _, _) :=
    interleave [true; true; false; false]
      (handleTelegramWebhook (contact_message chat from1 c1))
      (handleTelegramWebhook (contact_message chat from2 c2)) v in
  docs v' = map_set tok
              (patched (worker_fields c2)
                 (patched (worker_fields c1) (default ∅ (map_get tok (docs v)))))
              (docs v)
  /\ sent v' = (sent v
                ++ worker_webhook_of tok data c1 ++ [TelegramMessage chat Verified]
                ++ worker_webhook_of tok data c2 ++ [TelegramMessage chat Verified])%list.
Proof.
  intros Hfind Hown1 Hown2 Heq1 Heq2.
  unfold handleTelegramWebhook, contact_message, handleStart, handleContact.
  cbn [upd_message text msg_contact chat_id from_id].
  rewrite (strict_ne_user_id_own c1 from1), (strict_ne_user_id_own c2 from2) by assumption.
  unfold worker_active in Hfind. cbn in Hfind. cbn. rewrite Hfind.
  rewrite !strict_ne_false by assumption.
  unfold worker_webhook_of, worker_fields, patched.
  destruct (truthy (prop data "webhook_url")); cbn; rewrite <- ?app_assoc;
    rewrite map_get_set_eq; cbn; (split; [apply map_set_set|reflexivity]).
Qed.
End WorkerRace.

(** C2. In the worker two valid contact deliveries for one chat can
    both commit. Each handler reads the pending session with one
    request and writes verified with another; when both have read
    before either writes, both write, both call the webhook and both
    tell the chat it is verified: two webhook calls for one token. (In
    the server the lookup and the write are one uninterrupted step and
    the second delivery finds no pending session: see
    [server_concurrent_contacts_commit_once].) *)
Theorem worker_concurrent_contacts_commit_twice
    (v : Worker.world) (chat from1 from2 : Z) (c1 c2 : contact) (tok : string) (data : obj) :
  worker_active v chat = Some (tok, data) ->
  user_id c1 = Some from1 ->
  user_id c2 = Some from2 ->
  VStr (normalizePhone (phone_number c1)) = prop data "expected_phone" ->
  VStr (normalizePhone (phone_number c2)) = prop data "expected_phone" ->
  truthy (prop data "webhook_url") = true ->
  let '(v', _, _) :=
    interleave [true; true; false; false]
      (Worker.handleTelegramWebhook (contact_message chat from1 c1))
      (Worker.handleTelegramWebhook (contact_message chat from2 c2)) v in
  length (webhook_fetches (Worker.sent v')) = (length (webhook_fetches (Worker.sent v)) + 2)%nat
  /\ (exists b1 b2,
        Worker.sent v' = (Worker.sent v
          ++ [Worker.WebhookFetch (prop data "webhook_url") b1;
              Worker.TelegramMessage chat Worker.Verified;
              Worker.WebhookFetch (prop data "webhook_url") b2;
              Worker.TelegramMessage chat Worker.Verified])%list
        /\ b1 !! "token" = Some (VStr tok) /\ b2 !! "token" = Some (VStr tok))
  /\ exists d', map_get tok (Worker.docs v') = Some d'
       /\ d' !! "status" = Some (Worker.StringValue "verified")
       /\ d' !! "phone" = Some (Worker.StringValue (phone_number c2)).
Proof.
  intros Hfind Hown1 Hown2 Heq1 Heq2 Hurl.
  pose proof (worker_race_runs v chat from1 c1 from2 c2 tok data Hfind Hown1 Hown2 Heq1 Heq2) as H.
  destruct (interleave _ _ _ v) as [[v' r1] r2]. destruct H as [Hdocs Hsent].
  unfold worker_webhook_of in Hsent. rewrite Hurl in Hsent. cbn [app] in Hsent.
  split; [|split].
  - rewrite Hsent, webhook_fetches_app, length_app. reflexivity.
  - eexists _, _. split; [exact Hsent|]. unfold spread, worker_fields.
    split; (apply json_lookup; [reflexivity|discriminate]).
  - rewrite Hdocs. eexists. split; [apply map_get_set_eq|]. split.
    + apply patched_status.
    + unfold patched at 1. apply lookup_union_Some_l.
      unfold Worker.toFirestore. rewrite lookup_omap. reflexivity.
Qed.

Lemma worker_race_witness :
  let '(v', _, _) :=
    interleave [true; true; false; false]
      (Worker.handleTelegramWebhook (contact_message 555 42 Scenario.own_card))
      (Worker.handleTelegramWebhook (contact_message 555 42 Scenario.own_card))
      Scenario.v_bound in
  length (webhook_fetches (Worker.sent v')) = 2%nat.
Proof.
  pose proof (worker_concurrent_contacts_commit_twice Scenario.v_bound 555 42 42
    Scenario.own_card Scenario.own_card "tok-A"
    (default ∅ (snd <$> worker_active Scenario.v_bound 555))) as H.
  destruct (interleave _ _ _ Scenario.v_bound) as [[v' r1] r2].
  destruct H as [H _]; try (vm_compute; reflexivity).
  exact H.
Defined.


(** ** Two deliveries in the server *)

Section ServerRace.
Import Server.

Lemma run_resume {A} (p : proc world A) w :
  run p w = let (w', p') := resume p w in run p' w'.
Proof.
  revert w. induction p as [a|B act k IH|k IH]; intros w; cbn.
  - reflexivity.
  - destruct (act w) as [w' b]. apply IH.
  - reflexivity.
Qed.

Lemma quiet_resume {A} S l (p : proc world A) w :
  quiet S l p -> sessions w = S ->
  let (w', p') := resume p w in
  exists l1 l2, l = (l1 ++ l2)%list /\ sessions w' = S
    /\ sent w' = (sent w ++ l1)%list /\ quiet S l2 p'.
Proof.
  revert l w. induction p as [a|B act k IH|k IH]; intros l w Hq HS; cbn in *.
  - exists [], l. rewrite app_nil_r. subst l. auto.
  - destruct (Hq w HS) as [b [[Hact Hk]|(e & l' & -> & Hact & Hk)]]; rewrite Hact.
    + apply IH; assumption.
    + specialize (IH b l' (emit e w) Hk HS).
      destruct (resume (k b) (emit e w)) as [w' p'].
      destruct IH as (l1 & l2 & -> & HS' & Hsent & Hq').
      exists (e :: l1), l2. repeat split; auto.
      rewrite Hsent. cbn. rewrite <- app_assoc. reflexivity.
  - exists [], l. rewrite app_nil_r. auto.
Qed.

Lemma quiet_run {A} S l (p : proc world A) w :
  quiet S l p -> sessions w = S ->
  let (w', a) := run p w in
  sessions w' = S /\ sent w' = (sent w ++ l)%list.
Proof.
  revert l w. induction p as [a|B act k IH|k IH]; intros l w Hq HS; cbn in *.
  - subst l. rewrite app_nil_r. auto.
  - destruct (Hq w HS) as [b [[Hact Hk]|(e & l' & -> & Hact & Hk)]]; rewrite Hact.
    + apply IH; assumption.
    + specialize (IH b l' (emit e w) Hk HS).
      destruct (run (k b) (emit e w)) as [w' a].
      destruct IH as [HS' Hsent]. split; [exact HS'|].
      rewrite Hsent. cbn. rewrite <- app_assoc. reflexivity.
  - apply IH; assumption.
Qed.

(** Two quiet handlers, however they are scheduled, leave the map alone
    and send what each sends, in some order. *)
Lemma quiet_interleave {A B} S lp lq (p : proc world A) (q : proc world B) sched w :
  quiet S lp p -> quiet S lq q -> sessions w = S ->
  let '(w', _, _) := interleave sched p q w in
  sessions w' = S /\ sent w' ≡ₚ (sent w ++ lp ++ lq)%list.
Proof.
  revert lp lq p q w. induction sched as [|[] sched IH]; intros lp lq p q w Hp Hq HS.
  - cbn. pose proof (quiet_run S lp p w Hp HS) as H1.
    destruct (run p w) as [w1 a]. destruct H1 as [HS1 Hs1].
    pose proof (quiet_run S lq q w1 Hq HS1) as H2.
    destruct (run q w1) as [w2 b]. destruct H2 as [HS2 Hs2].
    split; [exact HS2|]. rewrite Hs2, Hs1, <- app_assoc. reflexivity.
  - cbn. pose proof (quiet_resume S lp p w Hp HS) as H1.
    destruct (resume p w) as [w1 p1]. destruct H1 as (l1 & l2 & -> & HS1 & Hs1 & Hp1).
    specialize (IH l2 lq p1 q w1 Hp1 Hq HS1).
    destruct (interleave sched p1 q w1) as [[w' a] b]. destruct IH as [HS' Hs'].
    split; [exact HS'|]. rewrite Hs', Hs1, <- !app_assoc. reflexivity.
  - cbn. pose proof (quiet_resume S lq q w Hq HS) as H1.
    destruct (resume q w) as [w1 q1]. destruct H1 as (l1 & l2 & -> & HS1 & Hs1 & Hq1).
    specialize (IH lp l2 p q1 w1 Hp Hq1 HS1).
    destruct (interleave sched p q1 w1) as [[w' a] b]. destruct IH as [HS' Hs'].
    split; [exact HS'|]. rewrite Hs', Hs1, <- !app_assoc.
    apply Permutation_app_head.
    rewrite !app_assoc. apply Permutation_app_tail, Permutation_app_comm.
Qed.

Lemma resume_step_bind {A B} (act : world -> world * B) (k : B -> proc world A) w :
  resume (step act ≫= k) w = let (w', b) := act w in resume (k b) w'.
Proof. reflexivity. Qed.

Lemma resume_await_step_bind {A B} (act : world -> world * B) (k : B -> proc world A) w :
  resume (await (step act) ≫= k) w = let (w', b) := act w in (w', k b).
Proof. cbn. destruct (act w). reflexivity. Qed.

Lemma quiet_reply {A} S chat r (k : proc world A) l :
  quiet S l k -> quiet S (ChatReply chat r :: l) (await (ctx_reply chat r) ≫= fun _ => k).
Proof.
  intros Hk. cbn. intros w HS. exists tt. right. eexists _, _. eauto.
Qed.

(** The first turn of a valid delivery: the session is found and
    written in one step; what is left of the handler only sends. *)
Lemma server_contact_first_turn (w : world) chat from c tok s :
  NoDup (sessions w).*1 ->
  user_id c = Some from ->
  snd (run (storage_findByChatId chat) w) = Some (tok, s) ->
  VStr (normalizePhone (phone_number c)) = prop s "expected_phone" ->
  exists K,
    resume (on_contact chat from c) w
    = (set_sessions (map_set tok (spread s (verified_fields c (clock w)))) w, K)
    /\ forall S, quiet S (webhook_of tok s c (clock w)
                         ++ [ChatReply chat (VerificationComplete (first_name c))]) K.
Proof.
  intros Hnd Hown Hfind Heq.
  destruct (findByChatId_found w chat tok s Hnd Hfind) as (Hget & _ & _).
  unfold on_contact. rewrite strict_ne_user_id_own by exact Hown.
  unfold storage_findByChatId in *. rewrite resume_step_bind. rewrite run_step in Hfind.
  cbn [snd] in Hfind. rewrite Hfind. rewrite strict_ne_false by exact Heq.
  unfold Date_now. rewrite resume_step_bind.
  unfold storage_update. rewrite resume_await_step_bind, Hget.
  eexists. split; [reflexivity|].
  intros S. unfold webhook_of, verified_fields.
  destruct (truthy (prop s "webhook_url")); cbn.
  - intros w' HS. exists tt. right. eexists _, _. split; [reflexivity|]. split; [reflexivity|].
    intros w'' HS'. exists tt. right. eexists _, _. eauto.
  - intros w' HS. exists tt. right. eexists _, _. eauto.
Qed.

Lemma find_none_all {A} (P : A -> bool) (l : list A) :
  (forall x, x ∈ l -> P x = false) -> find P l = None.
Proof.
  induction l as [|a r IH]; intros H; cbn; [reflexivity|].
  rewrite (H a) by left. apply IH. intros x Hx. apply H. right. exact Hx.
Qed.

Lemma find_after_commit (P : string * obj -> bool) tok s' (m : list (string * obj)) :
  NoDup m.*1 ->
  (forall k o, (k, o) ∈ m -> k <> tok -> P (k, o) = false) ->
  P (tok, s') = false ->
  find P (map_set tok s' m) = None.
Proof.
  intros Hnd Hsole Hs'. induction m as [|[k o] r IH]; cbn.
  - rewrite Hs'. reflexivity.
  - apply NoDup_cons in Hnd as [Hk Hnd].
    destruct (String.eqb_spec tok k) as [<-|Hne]; cbn.
    + rewrite Hs'. apply find_none_all. intros [k' o'] Hin. apply Hsole; [right; exact Hin|].
      intros ->. apply Hk. apply list_elem_of_fmap. exists (tok, o'). auto.
    + rewrite (Hsole k o) by (try left; congruence).
      apply IH; [exact Hnd|]. intros k' o' Hin. apply Hsole. right. exact Hin.
Qed.

(** A delivery that finds no pending session for its chat only says so. *)
Lemma server_contact_quiet (w : world) chat from c :
  user_id c = Some from ->
  snd (run (storage_findByChatId chat) w) = None ->
  quiet (sessions w) [ChatReply chat SessionExpired] (on_contact chat from c).
Proof.
  intros Hown Hfind. unfold on_contact. rewrite strict_ne_user_id_own by exact Hown.
  cbn in Hfind. cbn. intros w' HS. eexists. left. split; [reflexivity|].
  rewrite HS, Hfind. cbn. intros w'' HS'. exists tt. right. eexists _, _. eauto.
Qed.

Lemma webhook_posts_perm l l' :
  l ≡ₚ l' -> length (webhook_posts l) = length (webhook_posts l').
Proof.
  unfold webhook_posts.
  induction 1 as [|x l l' _ IH|x y l|l l' l'' _ IH1 _ IH2]; cbn.
  - reflexivity.
  - destruct x; cbn; congruence.
  - destruct x, y; reflexivity.
  - congruence.
Qed.

Lemma committed_not_found (w : world) chat tok s c now :
  NoDup (sessions w).*1 ->
  sole_candidate chat tok (sessions w) ->
  snd (run (storage_findByChatId chat)
         (set_sessions (map_set tok (spread s (verified_fields c now))) w)) = None.
Proof.
  intros Hnd Hsole. unfold storage_findByChatId. rewrite run_step. cbn [snd sessions set_sessions].
  apply find_after_commit; [exact Hnd|exact Hsole|].
  rewrite spread_status. unfold strict_eq at 2.
  rewrite bool_decide_eq_false_2 by discriminate. apply andb_false_r.
Qed.

(** In the server two valid deliveries for one chat commit once,
    whatever the schedule: the one that runs first finds the session
    and writes it in the same step, the other finds none. The session
    holds the fields of one contact, one webhook request is sent (none
    if the session has no webhook), one delivery is told it is
    complete and the other that the session is gone. *)
Lemma server_concurrent_contacts_commit_once
    (w : world) chat from1 c1 from2 c2 tok s (sched : list bool) :
  NoDup (sessions w).*1 ->
  snd (run (storage_findByChatId chat) w) = Some (tok, s) ->
  sole_candidate chat tok (sessions w) ->
  user_id c1 = Some from1 ->
  user_id c2 = Some from2 ->
  VStr (normalizePhone (phone_number c1)) = prop s "expected_phone" ->
  VStr (normalizePhone (phone_number c2)) = prop s "expected_phone" ->
  let '(w', _, _) :=
    interleave sched (on_contact chat from1 c1) (on_contact chat from2 c2) w in
  exists c, (c = c1 \/ c = c2)
    /\ sessions w' = map_set tok (spread s (verified_fields c (clock w))) (sessions w)
    /\ sent w' ≡ₚ (sent w ++ webhook_of tok s c (clock w)
                    ++ [ChatReply chat (VerificationComplete (first_name c));
                        ChatReply chat SessionExpired])%list
    /\ length (webhook_posts (sent w'))
       = (length (webhook_posts (sent w))
          + if truthy (prop s "webhook_url") then 1 else 0)%nat.
Proof.
  intros Hnd Hfind Hsole Hown1 Hown2 Heq1 Heq2.
  destruct (server_contact_first_turn w chat from1 c1 tok s Hnd Hown1 Hfind Heq1)
    as (K1 & Hr1 & Hq1).
  destruct (server_contact_first_turn w chat from2 c2 tok s Hnd Hown2 Hfind Heq2)
    as (K2 & Hr2 & Hq2).
  pose proof (committed_not_found w chat tok s c1 (clock w) Hnd Hsole) as Hn1.
  pose proof (committed_not_found w chat tok s c2 (clock w) Hnd Hsole) as Hn2.
  pose proof (server_contact_quiet _ chat from2 c2 Hown2 Hn1) as Hquiet2.
  pose proof (server_contact_quiet _ chat from1 c1 Hown1 Hn2) as Hquiet1.
  assert (forall c l,
            l ≡ₚ (sent w ++ webhook_of tok s c (clock w)
                   ++ [ChatReply chat (VerificationComplete (first_name c));
                       ChatReply chat SessionExpired])%list ->
            length (webhook_posts l)
            = (length (webhook_posts (sent w))
               + if truthy (prop s "webhook_url") then 1 else 0)%nat) as Hcount.
  { intros c l Hl. rewrite (webhook_posts_perm _ _ Hl), !webhook_posts_app, !length_app.
    unfold webhook_of. destruct (truthy (prop s "webhook_url")); reflexivity. }
  assert (forall p' w1,
            resume (on_contact chat from1 c1) w = (w1, p') ->
            interleave [] (on_contact chat from1 c1) (on_contact chat from2 c2) w
            = interleave [] p' (on_contact chat from2 c2) w1) as Hnil.
  { intros p' w1 Hr. cbn [interleave]. rewrite (run_resume (on_contact chat from1 c1) w), Hr.
    reflexivity. }
  destruct sched as [|[] sched].
  - rewrite (Hnil _ _ Hr1).
    pose proof (quiet_interleave _ _ _ K1 (on_contact chat from2 c2) [] _
                  (Hq1 _) Hquiet2 eq_refl) as H.
    destruct (interleave [] K1 _ _) as [[w' a] b]. destruct H as [HS Hs].
    exists c1. split; [auto|]. split; [exact HS|].
    assert (sent w' ≡ₚ (sent w ++ webhook_of tok s c1 (clock w)
                   ++ [ChatReply chat (VerificationComplete (first_name c1));
                       ChatReply chat SessionExpired])%list) as Hp.
    { rewrite Hs. cbn [sent set_sessions]. rewrite <- !app_assoc. reflexivity. }
    split; [exact Hp|]. eapply Hcount, Hp.
  - cbn [interleave]. rewrite Hr1.
    pose proof (quiet_interleave _ _ _ K1 (on_contact chat from2 c2) sched _
                  (Hq1 _) Hquiet2 eq_refl) as H.
    destruct (interleave sched K1 _ _) as [[w' a] b]. destruct H as [HS Hs].
    exists c1. split; [auto|]. split; [exact HS|].
    assert (sent w' ≡ₚ (sent w ++ webhook_of tok s c1 (clock w)
                   ++ [ChatReply chat (VerificationComplete (first_name c1));
                       ChatReply chat SessionExpired])%list) as Hp.
    { rewrite Hs. cbn [sent set_sessions]. rewrite <- !app_assoc. reflexivity. }
    split; [exact Hp|]. eapply Hcount, Hp.
  - cbn [interleave]. rewrite Hr2.
    pose proof (quiet_interleave _ _ _ (on_contact chat from1 c1) K2 sched _
                  Hquiet1 (Hq2 _) eq_refl) as H.
    destruct (interleave sched _ K2 _) as [[w' a] b]. destruct H as [HS Hs].
    exists c2. split; [auto|]. split; [exact HS|].
    assert (sent w' ≡ₚ (sent w ++ webhook_of tok s c2 (clock w)
                   ++ [ChatReply chat (VerificationComplete (first_name c2));
                       ChatReply chat SessionExpired])%list) as Hp.
    { rewrite Hs. cbn [sent set_sessions]. apply Permutation_app_head.
      rewrite Permutation_app_comm, <- app_assoc. reflexivity. }
    split; [exact Hp|]. eapply Hcount, Hp.
Qed.

(** The scenario's session, two deliveries, the second handler moving
    first: one webhook request. *)
Lemma server_race_example :
  let '(w', _, _) :=
    interleave [false; true; false; true]
      (on_contact 555 42 Scenario.own_card) (on_contact 555 42 Scenario.own_card)
      Scenario.s_bound in
  length (webhook_posts (sent w')) = 1%nat
  /\ prop (default ∅ (map_get "tok-A" (sessions w'))) "status" = VStr "verified".
Proof.
  pose proof (server_concurrent_contacts_commit_once Scenario.s_bound 555 42
    Scenario.own_card 42 Scenario.own_card "tok-A"
    (default ∅ (map_get "tok-A" (sessions Scenario.s_bound)))
    [false; true; false; true]) as H.
  destruct (interleave _ _ _ Scenario.s_bound) as [[w' a] b].
  destruct H as (c & _ & Hs & _ & Hn).
  - vm_compute. apply NoDup_singleton.
  - vm_compute. reflexivity.
  - intros k o Hin Hk. vm_compute in Hin. apply list_elem_of_singleton in Hin.
    injection Hin as -> _. contradiction.
  - reflexivity.
  - reflexivity.
  - vm_compute. reflexivity.
  - vm_compute. reflexivity.
  - split; [exact Hn|]. rewrite Hs, map_get_set_eq. apply spread_status.
Qed.

End ServerRace.

(** ** Normalization is idempotent *)

(** C10. normalizePhone applied twice is normalizePhone applied once.
    So the expected_phone a new session is stored with (createSession,
    handleInit) is a fixed point of normalizePhone, and the test the
    contact handlers make, normalizePhone(contact) against
    expected_phone, decides whether the two numbers have the same
    normal form. *)
Theorem normalizePhone_idempotent :
  (forall s, normalizePhone (normalizePhone s) = normalizePhone s)
  /\ (forall (w : Server.world) phone webhook_url client_secret,
        let '(w', (token, data)) := run (Server.createSession phone webhook_url client_secret) w in
        map_get token (Server.sessions w') = Some data
        /\ exists p, prop data "expected_phone" = VStr p /\ normalizePhone p = p)
  /\ (forall toISOString URL_protocol e (v : Worker.world) (body : obj) phone,
        prop body "phone" = VStr phone ->
        validatePhoneNumber (VStr phone) = true ->
        truthy (prop body "webhook_url")
          && negb (Worker.validateWebhookUrl URL_protocol (prop body "webhook_url")) = false ->
        let v' := fst (run (Worker.handleInit toISOString URL_protocol e body) v) in
        exists d p, map_get (Worker.uuid_source v (Worker.uuid_drawn v)) (Worker.docs v') = Some d
          /\ d !! "expected_phone" = Some (Worker.StringValue p)
          /\ normalizePhone p = p)
  /\ (forall c requested,
        let expected := normalizePhone requested in
        strict_ne (VStr (normalizePhone c)) (VStr expected) = false
        <-> normalizePhone (normalizePhone c) = normalizePhone expected).
Proof.
  split; [exact normalizePhone_idem|]. split; [|split].
  - intros w phone wh cs. pose proof (server_createSession_runs w phone wh cs) as H.
    cbn zeta in H. rewrite H. split; [apply map_get_set_eq|].
    eexists. split; [reflexivity|apply normalizePhone_idem].
  - intros iso proto e v body phone Hp Hv Hw.
    pose proof (worker_handleInit_runs iso proto e v body phone Hp Hv Hw) as H.
    cbn zeta in *. rewrite H. cbn [fst Worker.docs].
    eexists _, _. split; [apply map_get_set_eq|]. split.
    + unfold Worker.toFirestore. rewrite lookup_omap. reflexivity.
    + apply normalizePhone_idem.
  - intros c requested. cbn zeta. rewrite !normalizePhone_idem.
    unfold strict_ne, strict_eq. rewrite negb_false_iff, bool_decide_eq_true.
    split; congruence.
Qed.

Lemma normalizePhone_idempotent_witness :
  normalizePhone (normalizePhone "+251 911 234567") = normalizePhone "+251 911 234567"
  /\ (strict_ne (VStr (normalizePhone "+251 911 234567")) (VStr (normalizePhone "0911234567"))
      = false).
Proof.
  destruct normalizePhone_idempotent as (H1 & _ & _ & H2).
  split; [apply H1|]. apply H2. reflexivity.
Defined.

(** * Further properties of the code *)

(** ** The in-memory store *)

Section StoreFacts.
Context {V : Type}.
Implicit Types (m : list (string * V)) (k : string) (v : V).

Lemma map_get_delete_ne k k' m :
  k <> k' -> map_get k' (map_delete k m) = map_get k' m.
Proof.
  intros Hne. induction m as [|[k0 v0] r IH]; cbn; [reflexivity|].
  destruct (String.eqb_spec k k0) as [->|]; cbn.
  - destruct (String.eqb_spec k' k0); congruence.
  - rewrite IH. reflexivity.
Qed.

Lemma map_get_delete_eq k m : NoDup m.*1 -> map_get k (map_delete k m) = None.
Proof.
  induction m as [|[k0 v0] r IH]; cbn; intros Hnd; [reflexivity|].
  apply NoDup_cons in Hnd as [Hk Hnd].
  destruct (String.eqb_spec k k0) as [->|Hne]; cbn.
  - destruct (map_get k0 r) as [v|] eqn:E; [|reflexivity].
    exfalso. apply Hk. apply map_get_elem in E.
    apply list_elem_of_fmap. exists (k0, v). auto.
  - destruct (String.eqb_spec k k0); [contradiction|]. auto.
Qed.

Lemma map_set_keys_absent k v m :
  map_get k m = None -> (map_set k v m).*1 = (m.*1 ++ [k])%list.
Proof.
  induction m as [|[k0 v0] r IH]; cbn; [reflexivity|].
  destruct (String.eqb_spec k k0) as [->|]; cbn; [discriminate|].
  intros H. rewrite IH; auto.
Qed.

Lemma map_set_NoDup k v m : NoDup m.*1 -> NoDup (map_set k v m).*1.
Proof.
  intros Hnd. destruct (map_get k m) as [v'|] eqn:E.
  - rewrite (map_set_keys k v v' m E). exact Hnd.
  - rewrite (map_set_keys_absent k v m E). apply NoDup_app. split; [exact Hnd|].
    split; [|apply NoDup_singleton].
    intros x Hx Hx'. apply list_elem_of_singleton in Hx' as ->.
    apply (map_get_None k m E). exact Hx.
Qed.

Lemma map_delete_subkeys k m x : x ∈ (map_delete k m).*1 -> x ∈ m.*1.
Proof.
  induction m as [|[k0 v0] r IH]; cbn; [auto|].
  destruct (String.eqb k k0); cbn.
  - intros H. right. exact H.
  - intros [->|H]%elem_of_cons; [left|right; auto].
Qed.

Lemma map_delete_NoDup k m : NoDup m.*1 -> NoDup (map_delete k m).*1.
Proof.
  induction m as [|[k0 v0] r IH]; cbn; intros Hnd; [exact Hnd|].
  apply NoDup_cons in Hnd as [Hk Hnd].
  destruct (String.eqb k k0); cbn; [exact Hnd|].
  apply NoDup_cons. split; [|auto].
  intros H. apply Hk. eapply map_delete_subkeys. exact H.
Qed.
End StoreFacts.

(** storage.update: on an absent token it answers false and writes
    nothing; on a present token it answers true, the record becomes the
    old one overlaid with the given fields (given fields win, the other
    fields stay), no other record changes and no key is added, removed
    or moved. *)
Theorem storage_update_merges (w : Server.world) (token : string) (data : obj) :
  let '(w', r) := run (Server.storage_update token data) w in
  match map_get token (Server.sessions w) with
  | None => r = false /\ w' = w
  | Some existing =>
      r = true
      /\ exists merged, map_get token (Server.sessions w') = Some merged
           /\ (forall k x, data !! k = Some x -> merged !! k = Some x)
           /\ (forall k, data !! k = None -> merged !! k = existing !! k)
  end
  /\ (forall t, t <> token -> map_get t (Server.sessions w') = map_get t (Server.sessions w))
  /\ (Server.sessions w').*1 = (Server.sessions w).*1
  /\ Server.sent w' = Server.sent w /\ Server.timers w' = Server.timers w.
Proof.
  unfold Server.storage_update. rewrite run_step.
  destruct (map_get token (Server.sessions w)) as [existing|] eqn:Hget.
  - cbn. split; [|split; [|split]].
    + split; [reflexivity|]. exists (spread existing data).
      split; [apply map_get_set_eq|]. unfold spread. split.
      * intros k x Hk. apply lookup_union_Some_l. exact Hk.
      * intros k Hk. apply lookup_union_r. exact Hk.
    + intros t Ht. apply map_get_set_ne. congruence.
    + eapply map_set_keys. exact Hget.
    + split; reflexivity.
  - cbn. repeat split; reflexivity.
Qed.

(** storage.delete: the answer says whether the token was there;
    afterwards the token is absent and every other record is as it
    was. *)
Theorem storage_delete_removes (w : Server.world) (token : string) :
  NoDup (Server.sessions w).*1 ->
  let '(w', r) := run (Server.storage_delete token) w in
  r = bool_decide (is_Some (map_get token (Server.sessions w)))
  /\ snd (run (Server.storage_get token) w') = None
  /\ (forall t, t <> token ->
        snd (run (Server.storage_get t) w') = snd (run (Server.storage_get t) w))
  /\ NoDup (Server.sessions w').*1.
Proof.
  intros Hnd. unfold Server.storage_delete, Server.storage_get.
  rewrite run_step. cbn. split; [reflexivity|]. split; [|split].
  - apply map_get_delete_eq. exact Hnd.
  - intros t Ht. apply map_get_delete_ne. congruence.
  - apply map_delete_NoDup. exact Hnd.
Qed.

Lemma storage_delete_witness :
  let '(w', r) := run (Server.storage_delete "tok-A") Scenario.s_bound in
  r = true /\ snd (run (Server.storage_get "tok-A") w') = None.
Proof.
  pose proof (storage_delete_removes Scenario.s_bound "tok-A") as H.
  destruct (run (Server.storage_delete "tok-A") Scenario.s_bound) as [w' r].
  destruct H as (H1 & H2 & _).
  - vm_compute. apply NoDup_singleton.
  - split; [|exact H2]. rewrite H1. vm_compute. reflexivity.
Defined.

Lemma find_first {A} (P : A -> bool) (l : list A) x :
  find P l = Some x ->
  exists l1 l2, l = (l1 ++ x :: l2)%list /\ P x = true
    /\ forall y, y ∈ l1 -> P y = false.
Proof.
  induction l as [|a r IH]; cbn; [discriminate|].
  destruct (P a) eqn:E.
  - intros [= <-]. exists [], r. split; [reflexivity|]. split; [exact E|].
    intros y Hy. apply elem_of_nil in Hy as [].
  - intros H. destruct (IH H) as (l1 & l2 & -> & Hx & Hl1).
    exists (a :: l1), l2. split; [reflexivity|]. split; [exact Hx|].
    intros y [->|Hy]%elem_of_cons; auto.
Qed.

Lemma find_none_iff {A} (P : A -> bool) (l : list A) :
  find P l = None <-> forall x, x ∈ l -> P x = false.
Proof.
  split; [|apply find_none_all].
  intros H x Hx. apply (find_none P l H x). apply list_elem_of_In. exact Hx.
Qed.

(** storage.findByChatId reads only. It answers nothing exactly when
    no record is pending and bound to the chat; otherwise its answer
    is a record of the map, pending and bound to the chat, and the
    first such record in insertion order. *)
Theorem findByChatId_first_pending (w : Server.world) (chat : Z) :
  let '(w', found) := run (Server.storage_findByChatId chat) w in
  w' = w
  /\ (found = None <->
      forall k o, (k, o) ∈ Server.sessions w ->
        ~ (prop o "chat_id" = VNum chat /\ prop o "status" = VStr "pending"))
  /\ (forall tok s, found = Some (tok, s) ->
        prop s "chat_id" = VNum chat /\ prop s "status" = VStr "pending"
        /\ exists before after,
             Server.sessions w = (before ++ (tok, s) :: after)%list
             /\ forall k o, (k, o) ∈ before ->
                  ~ (prop o "chat_id" = VNum chat /\ prop o "status" = VStr "pending")).
Proof.
  unfold Server.storage_findByChatId. rewrite run_step. split; [reflexivity|].
  assert (forall (k : string) (o : obj),
            strict_eq (prop o "chat_id") (VNum chat)
            && strict_eq (prop o "status") (VStr "pending") = false
            <-> ~ (prop o "chat_id" = VNum chat /\ prop o "status" = VStr "pending")) as Hpred.
  { intros k o. rewrite andb_false_iff. unfold strict_eq.
    rewrite !bool_decide_eq_false. split.
    - intros [H|H] [H1 H2]; contradiction.
    - intros H. destruct (decide (prop o "chat_id" = VNum chat)); [|auto].
      right. intros H2. apply H. auto. }
  split.
  - rewrite find_none_iff. split.
    + intros H k o Hin. apply (Hpred k). apply (H (k, o) Hin).
    + intros H [k o] Hin. apply (Hpred k). apply (H k o Hin).
  - intros tok s Hf. apply find_first in Hf as (l1 & l2 & Hl & HP & Hl1).
    apply andb_prop in HP as [H1 H2]. apply strict_eq_true in H1, H2.
    split; [exact H1|]. split; [exact H2|].
    exists l1, l2. split; [exact Hl|].
    intros k o Hin. apply (Hpred k). apply (Hl1 (k, o) Hin).
Qed.

(** create() arms a timer 600000 ms ahead for its token. When the
    timer fires, a session that is still pending is removed and any
    other session (verified, expired) stays; no other record is
    touched. *)
Theorem expiry_timer_removes_only_pending (w : Server.world) (token : string) (data s : obj) :
  NoDup (Server.sessions w).*1 ->
  map_get token (Server.sessions w) = Some s ->
  Server.timers (fst (run (Server.storage_create token data) w))
    = (Server.timers w ++ [(Server.clock w + 600000, token)])%list
  /\ let w' := fst (run (Server.expire_callback token) w) in
     (prop s "status" = VStr "pending" -> map_get token (Server.sessions w') = None)
     /\ (prop s "status" <> VStr "pending" -> w' = w)
     /\ (forall t, t <> token ->
           map_get t (Server.sessions w') = map_get t (Server.sessions w)).
Proof.
  intros Hnd Hget. split; [reflexivity|].
  unfold Server.expire_callback. rewrite run_step, Hget. unfold strict_eq.
  destruct (decide (prop s "status" = VStr "pending")) as [Hp|Hp].
  - rewrite bool_decide_eq_true_2 by exact Hp. cbn. split; [|split].
    + intros _. apply map_get_delete_eq. exact Hnd.
    + contradiction.
    + intros t Ht. apply map_get_delete_ne. congruence.
  - rewrite bool_decide_eq_false_2 by exact Hp. cbn. split; [|split]; auto.
    contradiction.
Qed.

Lemma expiry_timer_witness :
  map_get "tok-A" (Server.sessions (fst (run (Server.expire_callback "tok-A") Scenario.s_bound)))
    = None
  /\ fst (run (Server.expire_callback "tok-A") Scenario.s_verified) = Scenario.s_verified.
Proof.
  destruct (expiry_timer_removes_only_pending Scenario.s_bound "tok-A" ∅
              (default ∅ (map_get "tok-A" (Server.sessions Scenario.s_bound))))
    as (_ & H1 & _); [vm_compute; apply NoDup_singleton|vm_compute; reflexivity|].
  destruct (expiry_timer_removes_only_pending Scenario.s_verified "tok-A" ∅
              (default ∅ (map_get "tok-A" (Server.sessions Scenario.s_verified))))
    as (_ & _ & H2 & _); [vm_compute; apply NoDup_singleton|vm_compute; reflexivity|].
  cbn zeta in *. split.
  - apply H1. vm_compute. reflexivity.
  - apply H2. vm_compute. discriminate.
Defined.

(** ** Validation *)

(** validatePhoneNumber accepts exactly the strings that have between
    10 and 15 digits, whatever else they contain; every value that is
    not a string is refused. *)
Lemma validatePhoneNumber_true (v : val) :
  validatePhoneNumber v = true
  <-> exists s, v = VStr s
        /\ (10 <= String.length (digits_of s) <= 15)%nat.
Proof.
  unfold validatePhoneNumber. split.
  - destruct v as [| |b|n|s]; try discriminate.
    destruct (negb (truthy (VStr s))); [discriminate|].
    cbv zeta. rewrite strip_non_digits_filter.
    intros [H1 H2]%andb_prop. apply Nat.leb_le in H1, H2.
    exists s. split; [reflexivity|lia].
  - intros (s & -> & H1 & H2).
    assert (truthy (VStr s) = true) as ->.
    { apply truthy_nonempty. intros ->. cbn in H1. lia. }
    cbn [negb]. cbv zeta. rewrite strip_non_digits_filter.
    apply andb_true_intro. split; apply Nat.leb_le; assumption.
Qed.

Theorem validatePhoneNumber_iff (v : val) :
  validatePhoneNumber v = true
  <-> exists s, v = VStr s
        /\ (10 <= String.length (digits_of s) <= 15)%nat.
Proof. apply validatePhoneNumber_true. Qed.

Lemma valid_phone_normal_form (s : string) :
  validatePhoneNumber (VStr s) = true ->
  all_digits (normalizePhone s)
  /\ (10 <= String.length (normalizePhone s) <= 15)%nat
  /\ (String.length (normalizePhone s) = String.length (digits_of s)
      \/ String.length (normalizePhone s) = 12%nat)
  /\ truthy (VStr (normalizePhone s)) = true.
Proof.
  intros Hv. apply validatePhoneNumber_true in Hv as (s' & [= <-] & H1 & H2).
  assert ((10 <= String.length (normalizePhone s) <= 15)%nat
          /\ (String.length (normalizePhone s) = String.length (digits_of s)
              \/ String.length (normalizePhone s) = 12%nat)) as [Hlen Hor].
  { rewrite normalizePhone_unfold. cbv zeta. rewrite strip_non_digits_filter.
    destruct (startsWith (digits_of s) "09" && (String.length (digits_of s) =? 10)%nat) eqn:C.
    - apply andb_prop in C as [P L]. apply Nat.eqb_eq in L.
      apply startsWith_09_inv in P as [rest E]. rewrite E in *.
      cbv [String.append substring1 String.length] in *. split; [lia|right; lia].
    - split; [lia|auto]. }
  split; [apply normalizePhone_all_digits|]. split; [exact Hlen|]. split; [exact Hor|].
  apply truthy_nonempty. intros E. rewrite E in Hlen. cbn in Hlen. lia.
Qed.

(** A number that passes validatePhoneNumber normalizes to a string of
    10 to 15 digits: the trunk rule, when it applies, gives 12, and
    otherwise the digits are kept. The expected_phone of a session is
    therefore never empty. *)
Theorem valid_phone_normalizes_to_digits (s : string) :
  validatePhoneNumber (VStr s) = true ->
  all_digits (normalizePhone s)
  /\ (10 <= String.length (normalizePhone s) <= 15)%nat
  /\ (String.length (normalizePhone s) = String.length (digits_of s)
      \/ String.length (normalizePhone s) = 12%nat)
  /\ truthy (VStr (normalizePhone s)) = true.
Proof. apply valid_phone_normal_form. Qed.

Lemma valid_phone_witness :
  all_digits (normalizePhone "+251 911 234567")
  /\ (10 <= String.length (normalizePhone "+251 911 234567") <= 15)%nat.
Proof.
  destruct (valid_phone_normalizes_to_digits "+251 911 234567") as (H1 & H2 & _);
    [reflexivity|].
  split; [exact H1|exact H2].
Defined.

(** ** What the server's handlers write *)

Section HandlerWrites.
Import Server.

Lemma not_handler_field_singleton (k f : string) (x : val) :
  f ∈ handler_fields -> k ∉ handler_fields -> ({[ f := x ]} : obj) !! k = None.
Proof.
  intros Hf Hk. apply lookup_singleton_ne. intros ->. contradiction.
Qed.

Lemma on_start_write (w : world) chat txt :
  handler_write (sessions w) (sessions (fst (run (on_start chat txt) w))).
Proof.
  unfold on_start.
  destruct (index (split " " txt) 1) as [| | | |token]; try (left; reflexivity).
  destruct (negb (truthy (VStr token))); [left; reflexivity|].
  rewrite run_bind, run_await. unfold storage_get. rewrite run_step.
  destruct (map_get token (sessions w)) as [s|] eqn:Hget; [|left; reflexivity].
  destruct (strict_eq (prop s "status") (VStr "verified")); [left; reflexivity|].
  rewrite run_bind, run_await. unfold storage_update. rewrite run_step, Hget.
  rewrite run_await. unfold ctx_reply. rewrite run_step. cbn.
  right. exists token, s, {[ "chat_id" := VNum chat ]}.
  split; [exact Hget|]. split; [reflexivity|]. split.
  - intros k Hk. apply not_handler_field_singleton; [|exact Hk].
    unfold handler_fields. set_solver.
  - left. reflexivity.
Qed.

Lemma on_contact_write (w : world) chat from c :
  handler_write (sessions w) (sessions (fst (run (on_contact chat from c) w))).
Proof.
  unfold on_contact.
  destruct (strict_ne (user_id_val c) (VNum from)); [left; reflexivity|].
  rewrite run_bind, run_findByChatId.
  destruct (snd (run (storage_findByChatId chat) w)) as [[tok s]|]; [|left; reflexivity].
  destruct (strict_ne _ _); [left; reflexivity|].
  rewrite run_bind. unfold Date_now. rewrite run_step.
  rewrite run_bind, run_await. unfold storage_update. rewrite run_step.
  destruct (map_get tok (sessions w)) as [ex|] eqn:Hget.
  - assert (forall w1 : world, sessions w1 = map_set tok (spread ex (verified_fields c (clock w))) (sessions w) ->
              handler_write (sessions w) (sessions w1)) as Hw.
    { intros w1 ->. right. exists tok, ex, (verified_fields c (clock w)).
      split; [exact Hget|]. split; [reflexivity|]. split.
      - intros k Hk. unfold verified_fields, handler_fields in *.
        repeat (apply not_elem_of_cons in Hk as [? Hk]).
        repeat (rewrite lookup_insert_ne by congruence).
        apply lookup_singleton_ne. congruence.
      - right. exists "verified". split; [reflexivity|discriminate]. }
    rewrite run_bind. destruct (truthy (prop s "webhook_url")).
    + rewrite run_await. unfold axios_post. rewrite run_step, run_await.
      unfold ctx_reply. rewrite run_step. apply Hw. reflexivity.
    + rewrite run_ret, run_await. unfold ctx_reply. rewrite run_step. apply Hw. reflexivity.
  - rewrite run_bind. destruct (truthy (prop s "webhook_url")).
    + rewrite run_await. unfold axios_post. rewrite run_step, run_await.
      unfold ctx_reply. rewrite run_step. left. reflexivity.
    + rewrite run_ret, run_await. unfold ctx_reply. rewrite run_step. left. reflexivity.
Qed.

Lemma check_write (w : world) token :
  handler_write (sessions w) (sessions (fst (run (check token) w))).
Proof.
  rewrite server_check_runs, server_getSession_runs.
  destruct (map_get token (sessions w)) as [s|] eqn:Hget; [|left; reflexivity].
  destruct (truthy _ && _); [|left; reflexivity].
  cbn. right. exists token, s, {[ "status" := VStr "expired" ]}.
  split; [exact Hget|]. split; [rewrite spread_singleton; reflexivity|]. split.
  - intros k Hk. apply not_handler_field_singleton; [|exact Hk].
    unfold handler_fields. set_solver.
  - right. exists "expired". split; [reflexivity|discriminate].
Qed.

Lemma handle_write (w : world) (e : event) :
  handler_write (sessions w) (sessions (fst (run (handle e) w))).
Proof.
  destruct e as [chat txt|chat from c|token]; cbn [handle].
  - apply on_start_write.
  - apply on_contact_write.
  - rewrite run_bind. pose proof (check_write w token) as H.
    destruct (run (check token) w) as [w' r]. exact H.
Qed.

End HandlerWrites.

Lemma handler_write_keys m m' : handler_write m m' -> m'.*1 = m.*1.
Proof.
  intros [->|(tok & ex & data & Hget & -> & _)]; [reflexivity|].
  eapply map_set_keys. exact Hget.
Qed.

Lemma handler_write_frame m m' token k :
  handler_write m m' -> k ∉ handler_fields ->
  (map_get token m' ≫= fun s : obj => s !! k) = (map_get token m ≫= fun s : obj => s !! k).
Proof.
  intros [->|(tok & ex & data & Hget & -> & Hdata & _)] Hk; [reflexivity|].
  destruct (decide (tok = token)) as [<-|Hne].
  - rewrite map_get_set_eq, Hget. cbn. unfold spread.
    apply lookup_union_r. apply Hdata. exact Hk.
  - rewrite map_get_set_ne by exact Hne. reflexivity.
Qed.

Lemma handler_write_status m m' token (s : obj) :
  handler_write m m' ->
  map_get token m = Some s ->
  prop s "status" <> VStr "pending" ->
  exists s', map_get token m' = Some s' /\ prop s' "status" <> VStr "pending".
Proof.
  intros [->|(tok & ex & data & Hget & -> & _ & Hst)] Hs Hnp; [eauto|].
  destruct (decide (tok = token)) as [<-|Hne].
  - rewrite map_get_set_eq. eexists. split; [reflexivity|].
    rewrite Hget in Hs. injection Hs as ->. unfold prop, spread.
    destruct Hst as [Hnone|(st & Hsome & Hst)].
    + rewrite lookup_union_r by exact Hnone. exact Hnp.
    + rewrite (lookup_union_Some_l _ _ _ _ Hsome). cbn. congruence.
  - rewrite map_get_set_ne by exact Hne. eauto.
Qed.

(** Whatever /start messages, contact messages and status checks
    arrive, in whatever order, the server keeps the same tokens in the
    same order (none is added, none removed), and of every session only
    chat_id, status, phone, telegram_id, first_name and verified_at may
    change: expected_phone, webhook_url, client_secret, created_at and
    expires_at stay as created. *)
Theorem handlers_write_only_their_fields (es : list event) (w : Server.world) :
  (Server.sessions (handle_all es w)).*1 = (Server.sessions w).*1
  /\ forall token k, k ∉ handler_fields ->
       field_of (handle_all es w) token k = field_of w token k.
Proof.
  revert w. induction es as [|e es IH]; intros w; cbn [handle_all].
  - split; reflexivity.
  - destruct (IH (fst (run (handle e) w))) as [IHk IHf].
    pose proof (handle_write w e) as Hw. split.
    + rewrite IHk. apply handler_write_keys. exact Hw.
    + intros token k Hk. rewrite (IHf token k Hk). unfold field_of.
      apply handler_write_frame; assumption.
Qed.

(** A session that is not pending is never pending again: no sequence
    of /start messages, contact messages and status checks removes it
    or sets its status back to pending. *)
Theorem status_never_returns_to_pending
    (es : list event) (w : Server.world) (token : string) (s : obj) :
  map_get token (Server.sessions w) = Some s ->
  prop s "status" <> VStr "pending" ->
  exists s', map_get token (Server.sessions (handle_all es w)) = Some s'
    /\ prop s' "status" <> VStr "pending".
Proof.
  revert w s. induction es as [|e es IH]; intros w s Hget Hnp; cbn [handle_all].
  - eauto.
  - destruct (handler_write_status _ _ token s (handle_write w e) Hget Hnp) as (s1 & H1 & Hnp1).
    eapply IH; eassumption.
Qed.

Lemma status_never_pending_witness :
  exists s', map_get "tok-A"
               (Server.sessions
                  (handle_all [Start 777 "/start tok-A";
                               ContactShared 777 42 Scenario.own_card;
                               StatusCheck "tok-A"]
                     (Server.at_time 700000 Scenario.s_verified))) = Some s'
    /\ prop s' "status" <> VStr "pending".
Proof.
  apply (status_never_returns_to_pending _ _ "tok-A"
           (default ∅ (map_get "tok-A" (Server.sessions Scenario.s_verified)))).
  - vm_compute. reflexivity.
  - vm_compute. discriminate.
Defined.

(** ** When a contact changes a session *)

Lemma strict_ne_false_inv (a b : val) : strict_ne a b = false -> a = b.
Proof.
  unfold strict_ne. rewrite negb_false_iff. apply strict_eq_true.
Qed.

Lemma user_id_val_own c (from : Z) : user_id_val c = VNum from -> user_id c = Some from.
Proof. unfold user_id_val. destruct (user_id c); congruence. Qed.

(** A contact message changes a session only when every check passes:
    the card is the sender's own, the session is pending and bound to
    the chat the message came from, and the normalized phone of the
    card is the session's expected_phone. Then the session takes the
    verified fields; in every other case, and for every other session,
    the record stays exactly as it was. *)
Theorem contact_changes_only_on_full_match
    (w : Server.world) (chat from : Z) (c : contact) (token : string) (s : obj) :
  NoDup (Server.sessions w).*1 ->
  map_get token (Server.sessions w) = Some s ->
  let w' := fst (run (Server.on_contact chat from c) w) in
  map_get token (Server.sessions w') = Some s
  \/ (user_id c = Some from
      /\ prop s "chat_id" = VNum chat
      /\ prop s "status" = VStr "pending"
      /\ VStr (normalizePhone (phone_number c)) = prop s "expected_phone"
      /\ map_get token (Server.sessions w')
         = Some (spread s (verified_fields c (Server.clock w)))).
Proof.
  intros Hnd Hget. cbn zeta.
  destruct (strict_ne (user_id_val c) (VNum from)) eqn:Hown.
  { left. unfold Server.on_contact. rewrite Hown. exact Hget. }
  apply strict_ne_false_inv, user_id_val_own in Hown.
  destruct (snd (run (Server.storage_findByChatId chat) w)) as [[tok s0]|] eqn:Hfind.
  2:{ left. rewrite server_contact_no_session by assumption. exact Hget. }
  destruct (findByChatId_found w chat tok s0 Hnd Hfind) as (Hget0 & Hchat & Hst).
  destruct (decide (VStr (normalizePhone (phone_number c)) = prop s0 "expected_phone"))
    as [Heq|Hne].
  2:{ left. rewrite (server_contact_mismatch w chat from c tok s0) by assumption. exact Hget. }
  destruct (server_contact_commit w chat from c tok s0 Hnd Hown Hfind Heq) as (Hs & _).
  cbn zeta in Hs. rewrite Hs.
  destruct (decide (tok = token)) as [->|Hneq].
  - right. rewrite Hget in Hget0. injection Hget0 as <-.
    rewrite map_get_set_eq. auto.
  - left. rewrite map_get_set_ne by exact Hneq. exact Hget.
Qed.

Lemma contact_changes_witness :
  let w' := fst (run (Server.on_contact 556 42 Scenario.own_card) Scenario.s_bound) in
  map_get "tok-A" (Server.sessions w') = map_get "tok-A" (Server.sessions Scenario.s_bound).
Proof.
  destruct (contact_changes_only_on_full_match Scenario.s_bound 556 42 Scenario.own_card
              "tok-A" (default ∅ (map_get "tok-A" (Server.sessions Scenario.s_bound))))
    as [H|(_ & H & _)].
  - vm_compute. apply NoDup_singleton.
  - vm_compute. reflexivity.
  - cbn zeta in *. rewrite H. vm_compute. reflexivity.
  - vm_compute in H. discriminate.
Defined.

(** ** The status check *)

(** A session checked at any time up to its expires_at, which is
    600000 ms after creation, is answered 200 as created: pending,
    with the normalized phone and the expiry, without client_secret,
    and the check writes nothing. *)
Theorem fresh_session_checks_pending
    (w : Server.world) (phone : string) (webhook_url client_secret : val) (t : Z) :
  t <= Server.clock w + 600000 ->
  let '(w1, (token, data)) := run (Server.createSession phone webhook_url client_secret) w in
  exists body,
    run (Server.check token) (Server.at_time t w1) = (Server.at_time t w1, Json 200 body)
    /\ body !! "status" = Some (VStr "pending")
    /\ body !! "expected_phone" = Some (VStr (normalizePhone phone))
    /\ body !! "expires_at" = Some (VNum (Server.clock w + 600000))
    /\ body !! "client_secret" = None
    /\ body !! "chat_id" = None.
Proof.
  intros Ht. pose proof (server_createSession_runs w phone webhook_url client_secret) as H.
  cbn zeta in H. rewrite H. clear H.
  rewrite server_check_runs.
  erewrite server_getSession_unexpired;
    [|cbn [Server.sessions Server.at_time]; apply map_get_set_eq|reflexivity|exact Ht].
  eexists. split; [reflexivity|].
  repeat split; try (apply json_lookup; [reflexivity|discriminate]);
    apply json_lookup_None; reflexivity.
Qed.

Lemma fresh_session_witness :
  let '(w1, (token, data)) :=
    run (Server.createSession "0911234567" (VStr "https://app.example/hook") (VStr "s3cret"))
        Scenario.s_fresh in
  exists body,
    run (Server.check token) (Server.at_time 601000 w1) = (Server.at_time 601000 w1, Json 200 body)
    /\ body !! "status" = Some (VStr "pending")
    /\ body !! "expected_phone" = Some (VStr (normalizePhone "0911234567"))
    /\ body !! "expires_at" = Some (VNum (Server.clock Scenario.s_fresh + 600000))
    /\ body !! "client_secret" = None
    /\ body !! "chat_id" = None.
Proof.
  apply (fresh_session_checks_pending Scenario.s_fresh "0911234567"
           (VStr "https://app.example/hook") (VStr "s3cret") 601000).
  vm_compute. discriminate.
Defined.

Lemma patched_masked (data : obj) (old : Worker.fsdoc) k y :
  data !! k = Some y -> patched data old !! k = Worker.toFirestore data !! k.
Proof.
  intros Hk. unfold patched.
  destruct (Worker.toFirestore data !! k) as [x|] eqn:E.
  - apply lookup_union_Some_l. exact E.
  - rewrite lookup_union_r by exact E. apply map_lookup_filter_None_2.
    right. intros x _ Hn. cbn in Hn. congruence.
Qed.

Lemma patched_idem (data : obj) (d : Worker.fsdoc) :
  patched data (patched data d) = patched data d.
Proof.
  apply map_eq. intros k. destruct (data !! k) as [y|] eqn:Ed.
  - rewrite !(patched_masked data _ k y Ed). reflexivity.
  - apply patched_other. exact Ed.
Qed.

Lemma world_eq_sessions (w : Server.world) (m m' : list (string * obj)) :
  m = m' -> Server.set_sessions (fun _ => m) w = Server.set_sessions (fun _ => m') w.
Proof. intros ->. reflexivity. Qed.

(** A status check repeated at the same instant gives the same answer
    and leaves the store as the first check left it: the expiry write
    happens once. Server and worker. *)
Theorem check_is_idempotent
    (w : Server.world) (token : string)
    (Date_parse : string -> option Z) (v : Worker.world) (token' : string) :
  (let '(w1, r1) := run (Server.check token) w in
   run (Server.check token) w1 = (w1, r1))
  /\
  (let '(v1, r1) := run (Worker.handleCheck Date_parse token') v in
   fst (run (Worker.handleCheck Date_parse token') v1) = v1).
Proof.
  split.
  - rewrite server_check_runs, server_getSession_runs.
    destruct (map_get token (Server.sessions w)) as [s|] eqn:Hget.
    2:{ rewrite server_check_runs, server_getSession_runs, Hget. reflexivity. }
    destruct (truthy (prop s "expires_at") && num_gt (Server.clock w) (prop s "expires_at"))
      eqn:Hexp.
    + rewrite server_check_runs, server_getSession_runs.
      cbn [Server.sessions Server.set_sessions Server.clock].
      rewrite map_get_set_eq.
      assert (prop (<["status" := VStr "expired"]> s) "expires_at" = prop s "expires_at") as ->.
      { unfold prop. rewrite lookup_insert_ne by discriminate. reflexivity. }
      rewrite Hexp. rewrite insert_insert_eq. unfold Server.set_sessions.
      cbn [Server.sessions Server.timers Server.sent Server.clock Server.uuid_source
           Server.uuid_drawn].
      rewrite map_set_set. reflexivity.
    + rewrite server_check_runs, server_getSession_runs, Hget, Hexp. reflexivity.
  - rewrite worker_handleCheck_runs.
    destruct (map_get token' (Worker.docs v)) as [d|] eqn:Hget; cbn [mbind option_bind].
    2:{ rewrite worker_handleCheck_runs, Hget. reflexivity. }
    destruct (Worker.fromFirestore d) as [doc|] eqn:Hdoc.
    2:{ rewrite worker_handleCheck_runs, Hget. cbn [mbind option_bind]. rewrite Hdoc.
        reflexivity. }
    destruct (truthy (prop doc "expires_at")
              && Worker.date_before_now Date_parse (prop doc "expires_at") (Worker.clock v))
      eqn:Hexp.
    + rewrite worker_handleCheck_runs.
      cbn [Worker.docs Worker.set_docs Worker.clock default].
      rewrite map_get_set_eq. cbn [mbind option_bind default].
      cbn [id].
      destruct (Worker.fromFirestore (patched {["status" := VStr "expired"]} d)) as [doc'|];
        [|reflexivity].
      destruct (truthy (prop doc' "expires_at") && _); cbn [fst]; [|reflexivity].
      unfold Worker.set_docs. cbn [fst Worker.docs Worker.sent Worker.clock
                                   Worker.uuid_source Worker.uuid_drawn].
      rewrite map_set_set, patched_idem. reflexivity.
    + rewrite worker_handleCheck_runs, Hget. cbn [mbind option_bind].
      rewrite Hdoc, Hexp. reflexivity.
Qed.

(** A check of a token that is not stored is answered 404 and writes
    nothing. Server and worker. *)
Theorem unknown_token_is_not_found
    (w : Server.world) (token : string)
    (Date_parse : string -> option Z) (v : Worker.world) (token' : string) :
  map_get token (Server.sessions w) = None ->
  map_get token' (Worker.docs v) = None ->
  run (Server.check token) w = (w, Json 404 {[ "error" := VStr "Token not found" ]})
  /\ run (Worker.handleCheck Date_parse token') v
     = (v, Json 404 {[ "error" := VStr "Token not found" ]}).
Proof.
  intros Hs Hd. split.
  - rewrite server_check_runs, server_getSession_runs, Hs. reflexivity.
  - rewrite worker_handleCheck_runs, Hd. reflexivity.
Qed.

Lemma unknown_token_witness :
  snd (run (Server.check "tok-Z") Scenario.s_bound)
    = Json 404 {[ "error" := VStr "Token not found" ]}
  /\ snd (run (Worker.handleCheck Scenario.parse "tok-Z") Scenario.v_bound)
    = Json 404 {[ "error" := VStr "Token not found" ]}.
Proof.
  destruct (unknown_token_is_not_found Scenario.s_bound "tok-Z" Scenario.parse
              Scenario.v_bound "tok-Z") as [H1 H2];
    [vm_compute; reflexivity|vm_compute; reflexivity|].
  rewrite H1, H2. split; reflexivity.
Defined.

(** ** The Firestore client *)

Lemma decode_encode (data : obj) k :
  prop (omap Worker.decode_field (Worker.toFirestore data)) k = readback (prop data k).
Proof.
  unfold prop, Worker.toFirestore. rewrite !lookup_omap.
  destruct (data !! k) as [[| |[]|n|s]|]; cbn; try reflexivity.
  destruct (String.eqb s ""); reflexivity.
Qed.

Lemma toFirestore_empty_iff (data : obj) :
  Worker.toFirestore data = ∅ <-> forall k, prop data k = VUndef.
Proof.
  unfold Worker.toFirestore, prop. split.
  - intros H k. apply (f_equal (fun m => m !! k)) in H.
    rewrite lookup_omap, lookup_empty in H.
    destruct (data !! k) as [[| |b|n|s]|]; cbn in *; congruence.
  - intros H. apply map_eq. intros k. rewrite lookup_omap, lookup_empty.
    specialize (H k). destruct (data !! k) as [[| |b|n|s]|]; cbn in *; congruence.
Qed.

Lemma run_getDoc (v : Worker.world) id :
  run (Worker.getDoc id) v = (v, map_get id (Worker.docs v) ≫= Worker.fromFirestore).
Proof.
  unfold Worker.getDoc. rewrite run_remote.
  destruct (map_get id (Worker.docs v)); reflexivity.
Qed.

Lemma run_updateDoc (v : Worker.world) id data :
  run (Worker.updateDoc id data) v
  = (Worker.set_docs
       (map_set id (patched data (default ∅ (map_get id (Worker.docs v))))) v, tt).
Proof. unfold Worker.updateDoc. rewrite run_remote. reflexivity. Qed.

Lemma prop_fromFirestore (d : Worker.fsdoc) k :
  prop (default ∅ (Worker.fromFirestore d)) k = prop (omap Worker.decode_field d) k.
Proof.
  unfold Worker.fromFirestore. destruct (bool_decide (d = ∅)) eqn:E; [|reflexivity].
  apply bool_decide_eq_true in E. subst d. rewrite omap_empty. reflexivity.
Qed.

(** Writing a document and reading it back loses what is falsy: a
    field comes back as written when it is a number or a truthy value
    (a non-empty string, true), and is missing when it was null, the
    empty string, false or undefined. The document reads as absent
    exactly when every field written was undefined; other documents
    are not touched. *)
Theorem createDoc_getDoc_round_trip (v : Worker.world) (id : string) (data : obj) :
  let v' := fst (run (Worker.createDoc id data) v) in
  let back := snd (run (Worker.getDoc id) v') in
  (forall k, prop (default ∅ back) k = readback (prop data k))
  /\ (back = None <-> forall k, prop data k = VUndef)
  /\ (forall id', id' <> id ->
        snd (run (Worker.getDoc id') v') = snd (run (Worker.getDoc id') v)).
Proof.
  cbn zeta. rewrite worker_createDoc_runs. cbn [fst]. rewrite run_getDoc. cbn [snd].
  cbn [Worker.docs Worker.set_docs]. rewrite map_get_set_eq. cbn [mbind option_bind].
  split; [|split].
  - intros k. rewrite prop_fromFirestore. apply decode_encode.
  - rewrite <- toFirestore_empty_iff. unfold Worker.fromFirestore.
    destruct (bool_decide (Worker.toFirestore data = ∅)) eqn:E.
    + apply bool_decide_eq_true in E. split; auto.
    + apply bool_decide_eq_false in E. split; [discriminate|contradiction].
  - intros id' Hne. rewrite !run_getDoc. cbn [snd Worker.docs Worker.set_docs].
    rewrite map_get_set_ne by congruence. reflexivity.
Qed.

(** updateDoc on a stored document, read back with getDoc: each field
    given comes back (as far as it is a number or truthy; an undefined,
    null, empty or false value leaves the field missing), each field
    not given reads as before, and no other document changes. *)
Theorem updateDoc_getDoc_merges
    (v : Worker.world) (id : string) (data : obj) (d : Worker.fsdoc) :
  map_get id (Worker.docs v) = Some d ->
  let v' := fst (run (Worker.updateDoc id data) v) in
  let back := default ∅ (snd (run (Worker.getDoc id) v')) in
  (forall k y, data !! k = Some y -> prop back k = readback y)
  /\ (forall k, data !! k = None -> prop back k = prop (omap Worker.decode_field d) k)
  /\ (forall id', id' <> id ->
        snd (run (Worker.getDoc id') v') = snd (run (Worker.getDoc id') v)).
Proof.
  intros Hget. cbn zeta. rewrite run_updateDoc, Hget.
  change (default ∅ (Some d)) with d. cbn [fst].
  rewrite run_getDoc. cbn [snd Worker.docs Worker.set_docs].
  rewrite map_get_set_eq. cbn [mbind option_bind]. split; [|split].
  - intros k y Hk. rewrite prop_fromFirestore. unfold prop at 1.
    rewrite lookup_omap, (patched_masked data d k y Hk).
    pose proof (decode_encode data k) as H. unfold prop at 1 in H.
    rewrite lookup_omap in H. rewrite H. unfold prop. rewrite Hk. reflexivity.
  - intros k Hk. rewrite prop_fromFirestore. unfold prop.
    rewrite !lookup_omap, (patched_other data d k Hk). reflexivity.
  - intros id' Hne. rewrite !run_getDoc. cbn [snd Worker.docs Worker.set_docs].
    rewrite map_get_set_ne by congruence. reflexivity.
Qed.

Lemma updateDoc_witness :
  let v' := fst (run (Worker.updateDoc "tok-A" {[ "chat_id" := VNum 0; "phone" := VStr "" ]})
                     Scenario.v_bound) in
  let back := default ∅ (snd (run (Worker.getDoc "tok-A") v')) in
  prop back "chat_id" = VNum 0
  /\ prop back "phone" = VUndef
  /\ prop back "status" = VStr "pending".
Proof.
  destruct (updateDoc_getDoc_merges Scenario.v_bound "tok-A"
              {[ "chat_id" := VNum 0; "phone" := VStr "" ]}
              (default ∅ (map_get "tok-A" (Worker.docs Scenario.v_bound))))
    as (H1 & H2 & _); [vm_compute; reflexivity|].
  cbn zeta in *. split; [|split].
  - apply (H1 "chat_id" (VNum 0)). reflexivity.
  - apply (H1 "phone" (VStr "")). reflexivity.
  - rewrite (H2 "status") by reflexivity. vm_compute. reflexivity.
Defined.

(** ** Creating a session through the worker *)

(** handleInit refuses with 400, and neither draws a token nor writes
    a document, when phone is missing or fails validatePhoneNumber, and
    when a webhook_url is given that is not a string URL with the https
    protocol. *)
Theorem handleInit_rejects_bad_input
    (toISOString : Z -> string) (URL_protocol : string -> option string)
    (e : Worker.env) (v : Worker.world) (body : obj) :
  (validatePhoneNumber (prop body "phone") = false ->
   run (Worker.handleInit toISOString URL_protocol e body) v
   = (v, Json 400 {[ "error" := VStr "Valid phone number is required" ]}))
  /\ (validatePhoneNumber (prop body "phone") = true ->
      truthy (prop body "webhook_url") = true ->
      (forall u, prop body "webhook_url" = VStr u -> URL_protocol u <> Some "https:") ->
      run (Worker.handleInit toISOString URL_protocol e body) v
      = (v, Json 400 {[ "error" := VStr "Webhook URL must be a valid HTTPS URL" ]})).
Proof.
  split.
  - intros Hv. unfold Worker.handleInit. rewrite Hv. cbn [negb]. rewrite orb_true_r.
    reflexivity.
  - intros Hv Ht Hu. unfold Worker.handleInit. rewrite Hv, Ht.
    assert (truthy (prop body "phone") = true) as ->.
    { apply validatePhoneNumber_true in Hv as (s & -> & H1 & _).
      apply truthy_nonempty. intros ->. cbn in H1. lia. }
    cbn [negb orb andb].
    assert (Worker.validateWebhookUrl URL_protocol (prop body "webhook_url") = false) as ->.
    { unfold Worker.validateWebhookUrl. rewrite Ht. cbn [negb].
      destruct (prop body "webhook_url") as [| | | |u] eqn:E; try reflexivity.
      apply bool_decide_eq_false. apply Hu. reflexivity. }
    reflexivity.
Qed.

Lemma handleInit_rejects_witness :
  run (Worker.handleInit Scenario.iso (fun _ => Some "http:") Scenario.bindings
         {[ "phone" := VStr "0911234567"; "webhook_url" := VStr "http://x" ]})
      Scenario.v_fresh
  = (Scenario.v_fresh, Json 400 {[ "error" := VStr "Webhook URL must be a valid HTTPS URL" ]})
  /\ run (Worker.handleInit Scenario.iso Scenario.protocol Scenario.bindings
            {[ "phone" := VStr "12345" ]})
         Scenario.v_fresh
     = (Scenario.v_fresh, Json 400 {[ "error" := VStr "Valid phone number is required" ]}).
Proof.
  split.
  - apply (proj2 (handleInit_rejects_bad_input Scenario.iso (fun _ => Some "http:")
                    Scenario.bindings Scenario.v_fresh
                    {[ "phone" := VStr "0911234567"; "webhook_url" := VStr "http://x" ]})).
    + reflexivity.
    + reflexivity.
    + intros u _. discriminate.
  - apply (proj1 (handleInit_rejects_bad_input Scenario.iso Scenario.protocol
                    Scenario.bindings Scenario.v_fresh {[ "phone" := VStr "12345" ]})).
    reflexivity.
Defined.

(** A session created by handleInit and checked at any time up to its
    expiry is answered 200 as pending with the normalized phone and
    without client_secret; a webhook_url that was not given is not in
    the answer at all (the null written for it does not come back).
    The expiry is the session age (MAX_SESSION_AGE, 3600 s when unset
    or 0) after creation. *)
Theorem worker_fresh_session_checks_pending
    (toISOString : Z -> string) (Date_parse : string -> option Z)
    (URL_protocol : string -> option string)
    (e : Worker.env) (v : Worker.world) (body : obj) (phone : string) (t : Z) :
  prop body "phone" = VStr phone ->
  validatePhoneNumber (VStr phone) = true ->
  truthy (prop body "webhook_url")
    && negb (Worker.validateWebhookUrl URL_protocol (prop body "webhook_url")) = false ->
  Date_parse (toISOString (Worker.clock v + Worker.session_age e * 1000))
    = Some (Worker.clock v + Worker.session_age e * 1000) ->
  t <= Worker.clock v + Worker.session_age e * 1000 ->
  let v1 := fst (run (Worker.handleInit toISOString URL_protocol e body) v) in
  let token := Worker.uuid_source v (Worker.uuid_drawn v) in
  exists answer,
    run (Worker.handleCheck Date_parse token) (Worker.at_time t v1)
    = (Worker.at_time t v1, Json 200 answer)
    /\ answer !! "status" = Some (VStr "pending")
    /\ answer !! "expected_phone" = Some (VStr (normalizePhone phone))
    /\ answer !! "client_secret" = None
    /\ (truthy (prop body "webhook_url") = false -> answer !! "webhook_url" = None).
Proof.
  intros Hp Hv Hw Hparse Ht.
  pose proof (worker_handleInit_runs toISOString URL_protocol e v body phone Hp Hv Hw) as H.
  cbn zeta in *. rewrite H. clear H. cbn [fst].
  erewrite worker_handleCheck_unexpired;
    [|cbn [Worker.docs Worker.at_time]; apply map_get_set_eq
     |unfold Worker.toFirestore; rewrite lookup_omap; reflexivity
     |exact Hparse|exact Ht].
  eexists. split; [reflexivity|]. unfold Worker.jsonResp.
  destruct (valid_phone_normal_form phone Hv) as (_ & _ & _ & Hne).
  split; [|split; [|split]].
  - apply json_lookup; [|discriminate]. rewrite lookup_delete_ne by discriminate.
    unfold Worker.toFirestore. rewrite !lookup_omap. reflexivity.
  - apply json_lookup; [|discriminate]. rewrite lookup_delete_ne by discriminate.
    unfold Worker.toFirestore. rewrite !lookup_omap.
    match goal with |- context [?m !! "expected_phone"] =>
      change (m !! "expected_phone") with (Some (VStr (normalizePhone phone))) end.
    cbn [mbind option_bind Worker.decode_field].
    cbn [truthy] in Hne. destruct (String.eqb (normalizePhone phone) "");
      [discriminate|reflexivity].
  - apply json_no_secret.
  - intros Hf. apply json_lookup_None. rewrite lookup_delete_ne by discriminate.
    unfold Worker.toFirestore. rewrite !lookup_omap.
    match goal with |- context [?m !! "webhook_url"] =>
      change (m !! "webhook_url") with (Some (or_else (prop body "webhook_url") VNull)) end.
    unfold or_else. rewrite Hf. reflexivity.
Qed.

Lemma worker_fresh_session_witness :
  exists answer,
    snd (run (Worker.handleCheck Scenario.parse "tok-A")
           (Worker.at_time 2000
              (fst (run (Worker.handleInit Scenario.iso Scenario.protocol Scenario.bindings
                           {[ "phone" := VStr "0911234567" ]}) Scenario.v_fresh))))
    = Json 200 answer
    /\ answer !! "status" = Some (VStr "pending")
    /\ answer !! "webhook_url" = None.
Proof.
  destruct (worker_fresh_session_checks_pending Scenario.iso Scenario.parse Scenario.protocol
              Scenario.bindings Scenario.v_fresh {[ "phone" := VStr "0911234567" ]}
              "0911234567" 2000)
    as (answer & Hrun & Hst & _ & _ & Hw);
    try reflexivity; [vm_compute; discriminate|].
  exists answer. cbn zeta in Hrun.
  change "tok-A" with (Worker.uuid_source Scenario.v_fresh (Worker.uuid_drawn Scenario.v_fresh)).
  rewrite Hrun. split; [reflexivity|]. split; [exact Hst|].
  apply Hw. reflexivity.
Defined.
